(** * weather-backend: the ingestion and query engine

    A shallow embedding of the two entry points of the repository,
    [src/server.js] and its older sibling (the second, unnamed source file),
    with the properties of the partition store, the hourly ingestion and the
    queries.

    The model:
    - [JS]: the parts of the JavaScript runtime the program calls: numbers
      with NaN, the date arithmetic of ECMA-262, [Date.parse] on date-only
      strings, [parseInt], [Math.max] and [Math.min];
    - [Reading]: a sample; its numbers are integers, fractions are outside
      the model;
    - [Json]: [JSON.stringify (data, null, 2)] and [JSON.parse] on arrays of
      readings, as text, and the grammar of JSON, which says of every text
      whether [JSON.parse] throws on it;
    - [Store]: the files and directories the program sees, the console, and
      computations that may throw;
    - the functions both files share, then the handlers of [Server]
      ([server.js]) and of [Part000] (the second file);
    - what the properties observe: the path of a partition, runs of events.

    The clock is an argument: every function that asks for the time takes the
    instant [now] of its call. Local time is the host's: an offset from UTC
    that may change with the instant.

    Where the model is exact. A text is read as the program reads it when it
    is an array of readings with integers a double holds, or no JSON at all;
    JSON of another shape has no value in the data model ([faithful]). On
    the disk a directory or a file that is absent can be made, unless a file
    sits in the place of the directory of the year ([ordinary]); what is said
    of a load or a save that makes something is said of calls that returned.
    [parseInt] is exact up to 2^53 ([exactInteger]). *)

From Stdlib Require Import ZArith List String Ascii Bool Lia.
From Stdlib Require Import Decimal DecimalString DecimalZ DecimalPos.
From stdpp Require Import gmap strings.

Import ListNotations.
Local Open Scope string_scope.
Local Open Scope Z_scope.
Local Open Scope list_scope.

(** ** The JavaScript runtime *)

Module JS.

(** A JavaScript number, as far as this program meets them: integers (time
    values in milliseconds, calendar fields, sensor units), the two
    infinities [Math.max] and [Math.min] start from, and NaN. *)
Inductive number : Type :=
| NaN
| NegInfinity
| Num (z : Z)
| Infinity.

(** [a === b] on numbers: NaN is equal to nothing, itself included. *)
Definition strict_eq (a b : number) : bool :=
  match a, b with
  | Num x, Num y => x =? y
  | Infinity, Infinity => true
  | NegInfinity, NegInfinity => true
  | _, _ => false
  end.

(** [a - b] and [a + b] where the program uses them: on a parsed month. *)
Definition sub (a : number) (k : Z) : number :=
  match a with Num x => Num (x - k) | other => other end.

Definition add (a : number) (k : Z) : number :=
  match a with Num x => Num (x + k) | other => other end.

(** What reaches [new Date (v)] and [parseInt (v)]: a query parameter that is
    absent, a string, or (in the second file) a number computed before. *)
Inductive value : Type :=
| undefined
| VStr (s : string)
| VNum (n : number).

(** Truthiness of a query parameter: absent and the empty string are falsy. *)
Definition truthy (q : option string) : bool :=
  match q with
  | Some s => negb (String.eqb s "")
  | None => false
  end.

(** [q ? f (q) : g] *)
Definition ifTruthy {A : Type} (q : option string) (f : string -> A) (g : A) : A :=
  match q with
  | Some s => if truthy q then f s else g
  | None => g
  end.

Definition of_query (q : option string) : value :=
  match q with Some s => VStr s | None => undefined end.

(** *** Decimal text of an integer *)

Definition show_Z (z : Z) : string := NilZero.string_of_int (Z.to_int z).

Definition ToString (n : number) : string :=
  match n with
  | NaN => "NaN"
  | NegInfinity => "-Infinity"
  | Infinity => "Infinity"
  | Num z => show_Z z
  end.

(** *** Date arithmetic (ECMA-262, Time Values and Time Range) *)

Definition msPerDay : Z := 86400000.
Definition msPerHour : Z := 3600000.

Definition Day (t : Z) : Z := t / msPerDay.

Definition DayFromYear (y : Z) : Z :=
  365 * (y - 1970) + (y - 1969) / 4 - (y - 1901) / 100 + (y - 1601) / 400.

Definition DaysInYear (y : Z) : Z :=
  if negb (y mod 4 =? 0) then 365
  else if negb (y mod 100 =? 0) then 366
  else if negb (y mod 400 =? 0) then 365
  else 366.

(** The largest [y] with [DayFromYear y <= Day t]: an estimate from the mean
    length of a Gregorian year, moved by one where it is off. *)
Definition YearFromTime (t : Z) : Z :=
  let d := Day t in
  let y := 1970 + (d * 400) / 146097 in
  if d <? DayFromYear y then y - 1
  else if DayFromYear (y + 1) <=? d then y + 1
  else y.

Definition InLeapYear (t : Z) : Z :=
  if DaysInYear (YearFromTime t) =? 366 then 1 else 0.

Definition DayWithinYear (t : Z) : Z := Day t - DayFromYear (YearFromTime t).

Definition MonthFromTime (t : Z) : Z :=
  let d := DayWithinYear t in
  let l := InLeapYear t in
  if d <? 31 then 0
  else if d <? 59 + l then 1
  else if d <? 90 + l then 2
  else if d <? 120 + l then 3
  else if d <? 151 + l then 4
  else if d <? 181 + l then 5
  else if d <? 212 + l then 6
  else if d <? 243 + l then 7
  else if d <? 273 + l then 8
  else if d <? 304 + l then 9
  else if d <? 334 + l then 10
  else 11.

(** Days of the year before month [m] (zero-based) starts. *)
Definition monthStart (m l : Z) : Z :=
  match m with
  | 0 => 0
  | 1 => 31
  | 2 => 59 + l
  | 3 => 90 + l
  | 4 => 120 + l
  | 5 => 151 + l
  | 6 => 181 + l
  | 7 => 212 + l
  | 8 => 243 + l
  | 9 => 273 + l
  | 10 => 304 + l
  | _ => 334 + l
  end.

Definition DateFromTime (t : Z) : Z :=
  DayWithinYear t - monthStart (MonthFromTime t) (InLeapYear t) + 1.

Definition HourFromTime (t : Z) : Z := (t / msPerHour) mod 24.

(** [TimeClip]: a time value further than 8.64e15 ms from the epoch is no
    date. *)
Definition maxTime : Z := 8640000000000000.

Definition TimeClip (t : Z) : number :=
  if Z.abs t <=? maxTime then Num t else NaN.

(** What the host decides: the offset of local time from UTC at each instant
    (so daylight saving is covered), what [Date.parse] makes of a string that
    is not one of the date-only forms modelled below, and the directory above
    [__dirname]. *)
Class Host : Type := {
  LocalTZA : Z -> Z;
  implParse : string -> number;
  baseDir : string
}.

Section WithHost.
Context `{Host}.

Definition LocalTime (t : Z) : Z := t + LocalTZA t.

(** *** [Date] objects: a time value or NaN *)

Definition getFullYear (d : number) : number :=
  match d with Num t => Num (YearFromTime (LocalTime t)) | _ => NaN end.

Definition getMonth (d : number) : number :=
  match d with Num t => Num (MonthFromTime (LocalTime t)) | _ => NaN end.

Definition getDate (d : number) : number :=
  match d with Num t => Num (DateFromTime (LocalTime t)) | _ => NaN end.

Definition getHours (d : number) : number :=
  match d with Num t => Num (HourFromTime (LocalTime t)) | _ => NaN end.

(** *** [Date.parse] on the date-only forms YYYY, YYYY-MM and YYYY-MM-DD,
    which denote midnight UTC *)

Definition digit (c : ascii) : option Z :=
  let n := Z.of_N (N_of_ascii c) in
  if (48 <=? n) && (n <=? 57) then Some (n - 48) else None.

Definition digits2 (a b : ascii) : option Z :=
  match digit a, digit b with
  | Some x, Some y => Some (10 * x + y)
  | _, _ => None
  end.

Definition digits4 (a b c d : ascii) : option Z :=
  match digits2 a b, digits2 c d with
  | Some x, Some y => Some (100 * x + y)
  | _, _ => None
  end.

Definition DaysInMonth (y m : Z) : Z :=
  let l := if DaysInYear y =? 366 then 1 else 0 in
  (if m =? 11 then 365 + l else monthStart (m + 1) l) - monthStart m l.

(** [MakeDate (MakeDay (y, m - 1, d), 0)] for a month [m] in 1..12 and a day
    [d] of that month. *)
Definition utcMidnight (y m d : Z) : option Z :=
  if (1 <=? m) && (m <=? 12) && (1 <=? d) && (d <=? DaysInMonth y (m - 1)) then
    let l := if DaysInYear y =? 366 then 1 else 0 in
    Some ((DayFromYear y + monthStart (m - 1) l + (d - 1)) * msPerDay)
  else None.

Definition isoDateOnly (s : string) : option Z :=
  match list_ascii_of_string s with
  | [y1; y2; y3; y4] =>
      match digits4 y1 y2 y3 y4 with
      | Some y => utcMidnight y 1 1
      | None => None
      end
  | [y1; y2; y3; y4; "-"%char; m1; m2] =>
      match digits4 y1 y2 y3 y4, digits2 m1 m2 with
      | Some y, Some m => utcMidnight y m 1
      | _, _ => None
      end
  | [y1; y2; y3; y4; "-"%char; m1; m2; "-"%char; d1; d2] =>
      match digits4 y1 y2 y3 y4, digits2 m1 m2, digits2 d1 d2 with
      | Some y, Some m, Some d => utcMidnight y m d
      | _, _, _ => None
      end
  | _ => None
  end.

Definition DateParse (s : string) : number :=
  match isoDateOnly s with
  | Some t => Num t
  | None => implParse s
  end.

(** [new Date (v)] for the values the program passes, as the time value of
    the new object. *)
Definition newDate (v : value) : number :=
  match v with
  | undefined => NaN
  | VStr s => DateParse s
  | VNum (Num t) => TimeClip t
  | VNum _ => NaN
  end.

(** *** [parseInt (string, radix)] *)

Definition isWhiteSpace (c : ascii) : bool :=
  let n := N_of_ascii c in
  ((9 <=? n) && (n <=? 13) || (n =? 32))%N.

Fixpoint trimStart (s : list ascii) : list ascii :=
  match s with
  | c :: rest => if isWhiteSpace c then trimStart rest else s
  | [] => []
  end.

(** The value of [c] as a digit: 0-9, then a-z or A-Z for 10..35. *)
Definition digitValue (c : ascii) : option Z :=
  let n := Z.of_N (N_of_ascii c) in
  if (48 <=? n) && (n <=? 57) then Some (n - 48)
  else if (97 <=? n) && (n <=? 122) then Some (n - 87)
  else if (65 <=? n) && (n <=? 90) then Some (n - 55)
  else None.

(** The longest prefix of digits below [r], read in radix [r]; [None] when
    that prefix is empty. *)
Fixpoint readDigits (r : Z) (acc : option Z) (s : list ascii) : option Z :=
  match s with
  | c :: rest =>
      match digitValue c with
      | Some v =>
          if v <? r
          then readDigits r (Some (r * match acc with Some a => a | None => 0 end + v)) rest
          else acc
      | None => acc
      end
  | [] => acc
  end.

Definition stripHexPrefix (s : list ascii) : option (list ascii) :=
  match s with
  | "0"%char :: "x"%char :: rest => Some rest
  | "0"%char :: "X"%char :: rest => Some rest
  | _ => None
  end.

Definition parseIntString (s : string) (radix : option Z) : number :=
  let s1 := trimStart (list_ascii_of_string s) in
  let '(sign, s2) :=
    match s1 with
    | "-"%char :: rest => (-1, rest)
    | "+"%char :: rest => (1, rest)
    | _ => (1, s1)
    end in
  let r0 := match radix with Some r => r | None => 0 end in
  if negb (r0 =? 0) && ((r0 <? 2) || (36 <? r0)) then NaN
  else
    let '(r, s3) :=
      if (r0 =? 0) || (r0 =? 16) then
        match stripHexPrefix s2 with
        | Some rest => (16, rest)
        | None => (if r0 =? 0 then 10 else r0, s2)
        end
      else (r0, s2) in
    match readDigits r None s3 with
    | Some n => Num (sign * n)
    | None => NaN
    end.

(** [parseInt (v, radix)]: the argument is turned into a string first. *)
Definition parseInt (v : value) (radix : option Z) : number :=
  match v with
  | undefined => parseIntString "undefined" radix
  | VStr s => parseIntString s radix
  | VNum n => parseIntString (ToString n) radix
  end.

(** *** [Math.max (...xs)] and [Math.min (...xs)] *)

Definition max2 (a b : number) : number :=
  match a, b with
  | NaN, _ | _, NaN => NaN
  | Infinity, _ | _, Infinity => Infinity
  | NegInfinity, x | x, NegInfinity => x
  | Num x, Num y => Num (Z.max x y)
  end.

Definition min2 (a b : number) : number :=
  match a, b with
  | NaN, _ | _, NaN => NaN
  | NegInfinity, _ | _, NegInfinity => NegInfinity
  | Infinity, x | x, Infinity => x
  | Num x, Num y => Num (Z.min x y)
  end.

Definition MathMax (xs : list number) : number := fold_left max2 xs NegInfinity.
Definition MathMin (xs : list number) : number := fold_left min2 xs Infinity.

(** *** [toLocaleString ('en-US', { month: 'long' })] *)

Definition monthName (m : Z) : string :=
  match m with
  | 0 => "January"
  | 1 => "February"
  | 2 => "March"
  | 3 => "April"
  | 4 => "May"
  | 5 => "June"
  | 6 => "July"
  | 7 => "August"
  | 8 => "September"
  | 9 => "October"
  | 10 => "November"
  | _ => "December"
  end.

End WithHost.

(** Two hosts to run the model on: UTC and India Standard Time (the zone of
    the cron schedule in [server.js]); neither parses anything beyond the
    date-only forms. *)
Definition utcHost : Host :=
  {| LocalTZA := fun _ => 0; implParse := fun _ => NaN; baseDir := "/srv" |}.

Definition istHost : Host :=
  {| LocalTZA := fun _ => 19800000; implParse := fun _ => NaN; baseDir := "/srv" |}.

End JS.

Import JS.

(** ** The data model *)

(** One sample, as [fetchDataFromApi] builds it: the two sensor values and
    the epoch milliseconds of the ingestion. *)
Record Reading : Type := {
  temperature : Z;
  humidity : Z;
  timestamp : Z
}.

(** ** JSON text of a partition *)

Module Json.

Definition nl : string := String "010"%char "".
Definition quote : ascii := "034"%char.

(** *** [JSON.stringify (data, null, 2)]

    Written with the text that follows as an argument, so that the output is
    one right-nested chain of literals and numbers. *)

Definition put_member (key : string) (v : Z) (k : string) : string :=
  "    " +:+ String quote (key +:+ String quote (": " +:+ show_Z v +:+ k)).

Definition put_object (r : Reading) (k : string) : string :=
  "  {" +:+ nl +:+
  put_member "temperature" (temperature r) ("," +:+ nl +:+
  put_member "humidity" (humidity r) ("," +:+ nl +:+
  put_member "timestamp" (timestamp r) (nl +:+ "  }" +:+ k))).

Fixpoint put_elements (rs : list Reading) (k : string) : string :=
  match rs with
  | [] => k
  | r :: rest =>
      put_object r
        (match rest with
         | [] => k
         | _ :: _ => "," +:+ nl +:+ put_elements rest k
         end)
  end.

Definition stringify (rs : list Reading) : string :=
  match rs with
  | [] => "[]"
  | _ :: _ => "[" +:+ nl +:+ put_elements rs (nl +:+ "]")
  end.

(** *** [JSON.parse]

    Modelled on the documents this data model can hold: an array of objects
    with the members [temperature], [humidity] and [timestamp], in that
    order, each an integer, in any layout of white space. [None] is the
    answer for every other text: for the texts that are no JSON, on which
    [JSON.parse] throws a [SyntaxError] ([notJson] below says which they
    are), and for JSON of another shape (members in another order or more of
    them, fractions, a value that is no array), which has no value in the
    data model. *)

Definition is_ws (c : ascii) : bool :=
  let n := N_of_ascii c in
  ((n =? 32) || (n =? 9) || (n =? 10) || (n =? 13))%N.

Fixpoint skip_ws (s : string) : string :=
  match s with
  | String c rest => if is_ws c then skip_ws rest else s
  | EmptyString => EmptyString
  end.

Definition digit_of (c : ascii) : option (uint -> uint) :=
  match N_of_ascii c with
  | 48%N => Some D0
  | 49%N => Some D1
  | 50%N => Some D2
  | 51%N => Some D3
  | 52%N => Some D4
  | 53%N => Some D5
  | 54%N => Some D6
  | 55%N => Some D7
  | 56%N => Some D8
  | 57%N => Some D9
  | _ => None
  end.

(** The digits [s] starts with, and what follows them. *)
Fixpoint span_digits (s : string) : uint * string :=
  match s with
  | String c rest =>
      match digit_of c with
      | Some d => let '(ds, k) := span_digits rest in (d ds, k)
      | None => (Nil, s)
      end
  | EmptyString => (Nil, EmptyString)
  end.

(** A JSON integer has at least one digit and no leading zero. *)
Definition parse_nat (s : string) : option (Z * string) :=
  let '(ds, k) := span_digits s in
  match ds with
  | Nil => None
  | _ => if uint_beq (unorm ds) ds then Some (Z.of_uint ds, k) else None
  end.

(** A fraction or an exponent after the digits makes a number that is no
    integer. *)
Definition starts_fraction (s : string) : bool :=
  match s with
  | String c _ =>
      let n := N_of_ascii c in ((n =? 46) || (n =? 101) || (n =? 69))%N
  | EmptyString => false
  end.

Definition parse_int (s : string) : option (Z * string) :=
  let '(neg, s') :=
    match s with
    | String "-"%char rest => (true, rest)
    | _ => (false, s)
    end in
  match parse_nat s' with
  | Some (n, k) =>
      if starts_fraction k then None else Some (if neg then - n else n, k)
  | None => None
  end.

(** The characters of a member name up to the closing quote; escapes and
    control characters are not part of any name of the data model. *)
Fixpoint span_key (s : string) : option (string * string) :=
  match s with
  | String c rest =>
      if Ascii.eqb c quote then Some (EmptyString, rest)
      else if Ascii.eqb c "\"%char || (N_of_ascii c <? 32)%N then None
      else
        match span_key rest with
        | Some (key, k) => Some (String c key, k)
        | None => None
        end
  | EmptyString => None
  end.

(** ["name" : integer] *)
Definition parse_member (name : string) (s : string) : option (Z * string) :=
  match s with
  | String c rest =>
      if Ascii.eqb c quote then
        match span_key rest with
        | Some (key, k) =>
            if String.eqb key name then
              match skip_ws k with
              | String ":"%char k' => parse_int (skip_ws k')
              | _ => None
              end
            else None
        | None => None
        end
      else None
  | EmptyString => None
  end.

Definition expect (c : ascii) (s : string) : option string :=
  match skip_ws s with
  | String c' rest => if Ascii.eqb c c' then Some (skip_ws rest) else None
  | EmptyString => None
  end.

Definition parse_object (s : string) : option (Reading * string) :=
  match expect "{" s with
  | None => None
  | Some s1 =>
  match parse_member "temperature" s1 with
  | None => None
  | Some (t, s2) =>
  match expect "," s2 with
  | None => None
  | Some s3 =>
  match parse_member "humidity" s3 with
  | None => None
  | Some (h, s4) =>
  match expect "," s4 with
  | None => None
  | Some s5 =>
  match parse_member "timestamp" s5 with
  | None => None
  | Some (ts, s6) =>
  match expect "}" s6 with
  | None => None
  | Some s7 => Some ({| temperature := t; humidity := h; timestamp := ts |}, s7)
  end end end end end end end.

(** Objects separated by commas up to the closing bracket; every round
    consumes text, so the length of the text is fuel enough. *)
Fixpoint parse_elements (fuel : nat) (s : string) : option (list Reading * string) :=
  match fuel with
  | O => None
  | S fuel' =>
      match parse_object s with
      | None => None
      | Some (r, s1) =>
          match s1 with
          | String ","%char s2 =>
              match parse_elements fuel' (skip_ws s2) with
              | Some (rs, k) => Some (r :: rs, k)
              | None => None
              end
          | String "]"%char s2 => Some ([r], s2)
          | _ => None
          end
      end
  end.

Definition parse (s : string) : option (list Reading) :=
  match expect "[" s with
  | None => None
  | Some (String "]"%char k) =>
      match skip_ws k with EmptyString => Some [] | _ => None end
  | Some s1 =>
      match parse_elements (String.length s) s1 with
      | Some (rs, k) =>
          match skip_ws k with EmptyString => Some rs | _ => None end
      | None => None
      end
  end.

(** *** What the parser may meet after a number, and plain member names *)

Definition no_digit_ahead (k : string) : Prop :=
  match k with
  | String c _ => digit_of c = None
  | EmptyString => True
  end.

(** What may follow a number in the text. *)
Definition ends_number (k : string) : Prop :=
  no_digit_ahead k /\ starts_fraction k = false.

(** Member names without quotes, escapes or control characters. *)
Definition plain_char (c : ascii) : bool :=
  negb (Ascii.eqb c quote) && negb (Ascii.eqb c "\"%char || (N_of_ascii c <? 32)%N).

Fixpoint plain (s : string) : bool :=
  match s with
  | String c rest => plain_char c && plain rest
  | EmptyString => true
  end.

(** *** The grammar of JSON (ECMA-404), as [JSON.parse] accepts it

    A recogniser of the whole grammar, on the bytes of the text: values are
    objects, arrays, strings, numbers and the three literals, with white
    space around the six structural characters. Each scanner returns the
    text after what it has recognised. [fuel] bounds the nesting and the
    number of elements. *)

Definition is_digit (c : ascii) : bool :=
  match digit_of c with Some _ => true | None => false end.

Definition is_hex (c : ascii) : bool :=
  let n := N_of_ascii c in
  (((48 <=? n) && (n <=? 57)) || ((65 <=? n) && (n <=? 70))
   || ((97 <=? n) && (n <=? 102)))%N.

(** What may follow a backslash in a string, [u] apart. *)
Definition is_escape (c : ascii) : bool :=
  Ascii.eqb c quote || Ascii.eqb c "\" || Ascii.eqb c "/" || Ascii.eqb c "b"
  || Ascii.eqb c "f" || Ascii.eqb c "n" || Ascii.eqb c "r" || Ascii.eqb c "t".

Fixpoint skip_digits (s : string) : string :=
  match s with
  | String c rest => if is_digit c then skip_digits rest else s
  | EmptyString => EmptyString
  end.

(** One digit or more. *)
Definition scan_digits (s : string) : option string :=
  match s with
  | String c rest => if is_digit c then Some (skip_digits rest) else None
  | EmptyString => None
  end.

(** [0], or a digit from 1 to 9 and any digits. *)
Definition scan_int (s : string) : option string :=
  match s with
  | String c rest =>
      if Ascii.eqb c "0" then Some rest
      else if is_digit c then Some (skip_digits rest)
      else None
  | EmptyString => None
  end.

Definition scan_frac (s : string) : option string :=
  match s with
  | String c rest => if Ascii.eqb c "." then scan_digits rest else Some s
  | EmptyString => Some s
  end.

Definition scan_exp (s : string) : option string :=
  match s with
  | String c rest =>
      if Ascii.eqb c "e" || Ascii.eqb c "E" then
        match rest with
        | String d rest' =>
            if Ascii.eqb d "+" || Ascii.eqb d "-" then scan_digits rest'
            else scan_digits rest
        | EmptyString => None
        end
      else Some s
  | EmptyString => Some s
  end.

Definition scan_number (s : string) : option string :=
  let s' :=
    match s with
    | String c rest => if Ascii.eqb c "-" then rest else s
    | EmptyString => s
    end in
  match scan_int s' with
  | Some s1 =>
      match scan_frac s1 with
      | Some s2 => scan_exp s2
      | None => None
      end
  | None => None
  end.

(** The characters of a string after its opening quote, up to and with the
    closing one: any byte from 32 on but the quote and the backslash, or an
    escape. *)
Fixpoint scan_string (s : string) : option string :=
  match s with
  | String c rest =>
      if Ascii.eqb c quote then Some rest
      else if Ascii.eqb c "\" then
        match rest with
        | String e rest1 =>
            if is_escape e then scan_string rest1
            else if Ascii.eqb e "u" then
              match rest1 with
              | String h1 (String h2 (String h3 (String h4 rest2))) =>
                  if is_hex h1 && is_hex h2 && is_hex h3 && is_hex h4
                  then scan_string rest2 else None
              | _ => None
              end
            else None
        | EmptyString => None
        end
      else if (N_of_ascii c <? 32)%N then None
      else scan_string rest
  | EmptyString => None
  end.

(** The rest of a literal whose first letter has been read. *)
Fixpoint scan_literal (lit s : string) : option string :=
  match lit with
  | EmptyString => Some s
  | String a lit' =>
      match s with
      | String b rest => if Ascii.eqb a b then scan_literal lit' rest else None
      | EmptyString => None
      end
  end.

(** A value, the members of an object after its brace, the elements of an
    array after its bracket; each starts at a character that is no white
    space. *)
Fixpoint scan_value (fuel : nat) (s : string) : option string :=
  match fuel with
  | O => None
  | S fuel' =>
      match s with
      | String c rest =>
          if Ascii.eqb c "{" then
            match skip_ws rest with
            | String c' rest' =>
                if Ascii.eqb c' "}" then Some rest'
                else scan_members fuel' (String c' rest')
            | EmptyString => None
            end
          else if Ascii.eqb c "[" then
            match skip_ws rest with
            | String c' rest' =>
                if Ascii.eqb c' "]" then Some rest'
                else scan_elements fuel' (String c' rest')
            | EmptyString => None
            end
          else if Ascii.eqb c quote then scan_string rest
          else if Ascii.eqb c "t" then scan_literal "rue" rest
          else if Ascii.eqb c "f" then scan_literal "alse" rest
          else if Ascii.eqb c "n" then scan_literal "ull" rest
          else scan_number s
      | EmptyString => None
      end
  end
with scan_members (fuel : nat) (s : string) : option string :=
  match fuel with
  | O => None
  | S fuel' =>
      match s with
      | String c rest =>
          if Ascii.eqb c quote then
            match scan_string rest with
            | Some s1 =>
                match skip_ws s1 with
                | String c2 s2 =>
                    if Ascii.eqb c2 ":" then
                      match scan_value fuel' (skip_ws s2) with
                      | Some s3 =>
                          match skip_ws s3 with
                          | String c4 s4 =>
                              if Ascii.eqb c4 "," then scan_members fuel' (skip_ws s4)
                              else if Ascii.eqb c4 "}" then Some s4
                              else None
                          | EmptyString => None
                          end
                      | None => None
                      end
                    else None
                | EmptyString => None
                end
            | None => None
            end
          else None
      | EmptyString => None
      end
  end
with scan_elements (fuel : nat) (s : string) : option string :=
  match fuel with
  | O => None
  | S fuel' =>
      match scan_value fuel' s with
      | Some s1 =>
          match skip_ws s1 with
          | String c s2 =>
              if Ascii.eqb c "," then scan_elements fuel' (skip_ws s2)
              else if Ascii.eqb c "]" then Some s2
              else None
          | EmptyString => None
          end
      | None => None
      end
  end.

(** One value with white space around it and nothing else. *)
Definition accepts (fuel : nat) (s : string) : bool :=
  match scan_value fuel (skip_ws s) with
  | Some rest => match skip_ws rest with EmptyString => true | _ => false end
  | None => false
  end.

(** The text is JSON: [JSON.parse] returns a value. *)
Definition isJson (s : string) : Prop := exists fuel, accepts fuel s = true.

(** The text is no JSON: [JSON.parse] throws a [SyntaxError]. *)
Definition notJson (s : string) : Prop := forall fuel, accepts fuel s = false.

(** What a numeral starts with. *)
Definition starts_number (s : string) : Prop :=
  match s with
  | String c _ => c = "-"%char \/ is_digit c = true
  | EmptyString => False
  end.

End Json.

(** ** The file system and the console *)

Module Store.

(** What a path holds when it holds something: text, or a node that cannot
    be opened, on which [readFileSync] and [writeFileSync] throw an error
    other than ENOENT (a directory in the place of the file, missing
    permissions, a file in the place of the directory above). A path on
    which [readFileSync] throws ENOENT is absent from the map. *)
Inductive node : Type :=
| Unreadable
| Text (s : string).

(** What a [catch] clause gets: a system error with its [code], the
    [SyntaxError] of [JSON.parse] (which has no [code]), or the rejection of
    the sensor request. *)
Inductive error : Type :=
| ENOENT
| EACCES
| SyntaxError
| RequestFailed.

Inductive logline : Type :=
| Log (msg : string)
| LogError (msg : string) (err : error).

Record world : Type := {
  dirs : gset string;
  files : gmap string node;
  console : list logline
}.

Inductive result (A : Type) : Type :=
| Ok (a : A)
| Throw (e : error).
Arguments Ok {A} a.
Arguments Throw {A} e.

(** Computations that read and write the world and may throw. *)
Definition M (A : Type) : Type := world -> result A * world.

#[global] Instance M_ret : MRet M := fun A a w => (Ok a, w).

#[global] Instance M_bind : MBind M := fun A B f m w =>
  match m w with
  | (Ok a, w') => f a w'
  | (Throw e, w') => (Throw e, w')
  end.

Definition throw {A : Type} (e : error) : M A := fun w => (Throw e, w).

(** [try { m } catch (err) { h err }] *)
Definition try_catch {A : Type} (m : M A) (h : error -> M A) : M A := fun w =>
  match m w with
  | (Ok a, w') => (Ok a, w')
  | (Throw e, w') => h e w'
  end.

(** [fs.existsSync]: something is at the path, a directory or a file. *)
Definition existsSync (path : string) : M bool := fun w =>
  (Ok (bool_decide (path ∈ dirs w) || bool_decide (is_Some (files w !! path))), w).

(** [fs.mkdirSync], called on a path that holds nothing. The directory can be
    made: a parent that is missing or closed to the program is outside the
    model. *)
Definition mkdirSync (dir : string) : M unit := fun w =>
  (Ok tt, {| dirs := {[dir]} ∪ dirs w; files := files w; console := console w |}).

(** [fs.readFileSync (path, 'utf8')]: ENOENT for a path that holds nothing,
    the one other system error of the model for a node that cannot be
    opened. *)
Definition readFileSync (path : string) : M string := fun w =>
  match files w !! path with
  | None => (Throw ENOENT, w)
  | Some Unreadable => (Throw EACCES, w)
  | Some (Text s) => (Ok s, w)
  end.

(** [fs.writeFileSync]: replaces the text of a file and makes a file that is
    absent; a node that cannot be opened makes it throw. A disk on which a
    file that is absent cannot be made (full, read-only) is outside the
    model. *)
Definition writeFileSync (path : string) (s : string) : M unit := fun w =>
  match files w !! path with
  | Some Unreadable => (Throw EACCES, w)
  | _ => (Ok tt, {| dirs := dirs w; files := <[path := Text s]> (files w);
                    console := console w |})
  end.

Definition console_log (msg : string) : M unit := fun w =>
  (Ok tt, {| dirs := dirs w; files := files w; console := console w ++ [Log msg] |}).

Definition console_error (msg : string) (err : error) : M unit := fun w =>
  (Ok tt, {| dirs := dirs w; files := files w;
             console := console w ++ [LogError msg err] |}).

Definition JSON_parse (s : string) : M (list Reading) :=
  match Json.parse s with
  | Some rs => mret rs
  | None => throw SyntaxError
  end.

Definition emptyWorld : world := {| dirs := ∅; files := ∅; console := [] |}.

End Store.

Import Store.

(** ** The functions both entry points share

    Every function that reads the clock takes the instant [now] (epoch
    milliseconds) of the call. *)

Inductive entryPoint : Type := ServerJs | Part000.

Section Engine.
Context `{Host}.

Definition getCurrentYear (now : Z) : Z := YearFromTime (LocalTime now).

Definition getCurrentMonth (now : Z) : string :=
  monthName (MonthFromTime (LocalTime now)).

Definition getDataFilePath (now : Z) : M string :=
  let currentMonth := getCurrentMonth now in
  let currentYear := getCurrentYear now in
  let yearDir := baseDir +:+ "/data_" +:+ show_Z currentYear in
  there ← existsSync yearDir;
  _ ← (if negb there then mkdirSync yearDir else mret tt);
  mret (yearDir +:+ "/weather_data_" +:+ currentMonth +:+ ".json").

Definition writeWeatherData (now : Z) (data : list Reading) : M unit :=
  filePath ← getDataFilePath now;
  writeFileSync filePath (Json.stringify data).

Definition readErrorMessage (ep : entryPoint) (now : Z) : string :=
  match ep with
  | ServerJs => "Error reading weather data:"
  | Part000 =>
      "Error reading weather data for " +:+ getCurrentMonth now +:+ " in "
      +:+ show_Z (getCurrentYear now) +:+ ":"
  end.

Definition readWeatherData (ep : entryPoint) (now : Z) : M (list Reading) :=
  filePath ← getDataFilePath now;
  try_catch
    (data ← readFileSync filePath; JSON_parse data)
    (fun err =>
       match err with
       | ENOENT =>
           _ ← console_log ("Creating new file for " +:+ getCurrentMonth now
                             +:+ " in " +:+ show_Z (getCurrentYear now));
           _ ← writeWeatherData now [];
           mret []
       | _ =>
           _ ← console_error (readErrorMessage ep now) err;
           mret []
       end).

(** [new Date (entry.timestamp)] *)
Definition entryDate (entry : Reading) : number :=
  newDate (VNum (Num (timestamp entry))).

(** The answer of the sensor: [None] when the request fails, the two fields
    of the body otherwise. *)
Definition fetchDataFromApi (ep : entryPoint) (now : Z) (response : option (Z * Z))
  : M unit :=
  try_catch
    (match response with
     | None => throw RequestFailed
     | Some (apiTemperature, apiHumidity) =>
         let newWeatherData :=
           {| temperature := apiTemperature; humidity := apiHumidity;
              timestamp := now |} in
         existingData ← readWeatherData ep now;
         let currentHour := getHours (Num now) in
         let hasCurrentHourData :=
           existsb (fun entry => strict_eq (getHours (entryDate entry)) currentHour)
                   existingData in
         if negb hasCurrentHourData then
           _ ← writeWeatherData now (existingData ++ [newWeatherData]);
           console_log "Data fetched and saved successfully."
         else
           console_log "Data for the current hour already exists."
     end)
    (fun error => console_error "Error fetching data from API:" error).

Definition filterData (data : list Reading) (filterBy : string) (filterValue : value)
  : list Reading :=
  if String.eqb filterBy "day" then
    let filterDay := getDate (newDate filterValue) in
    List.filter (fun entry => strict_eq (getDate (entryDate entry)) filterDay) data
  else if String.eqb filterBy "month" then
    let filterMonth := getMonth (newDate filterValue) in
    List.filter (fun entry => strict_eq (getMonth (entryDate entry)) filterMonth) data
  else if String.eqb filterBy "hour" then
    let filterHour := parseInt filterValue None in
    List.filter (fun entry => strict_eq (getHours (entryDate entry)) filterHour) data
  else if String.eqb filterBy "timestamp" then
    let filterTimestamp := parseInt filterValue None in
    List.filter (fun entry => strict_eq (Num (timestamp entry)) filterTimestamp) data
  else if String.eqb filterBy "year" then
    let filterYear := getFullYear (newDate filterValue) in
    List.filter (fun entry => strict_eq (getFullYear (entryDate entry)) filterYear) data
  else data.

(** What a handler sends. *)
Inductive body : Type :=
| ReadingsBody (readings : list Reading)
| MinMaxDayBody (highest lowest : number) (day : string)
| MinMaxBody (highest lowest : option number)
| MessageBody (message : string)
| ErrorBody (error : string).

Record reply : Type := {
  status : Z;
  payload : body
}.

Definition internalError (what : string) (err : error) : M reply :=
  _ ← console_error what err;
  mret {| status := 500; payload := ErrorBody "Internal Server Error" |}.

(** [app.get ('/weather')], the same in both files. *)
Definition getWeather (ep : entryPoint) (now : Z) (filterBy filterValue : option string)
  : M reply :=
  try_catch
    (weatherData ← readWeatherData ep now;
     let filteredData :=
       ifTruthy filterBy
         (fun filterBy => filterData weatherData filterBy (of_query filterValue))
         weatherData in
     mret {| status := 200; payload := ReadingsBody filteredData |})
    (internalError "Error retrieving data:").

End Engine.

(** ** [server.js] *)

Module Server.
Section Handlers.
Context `{Host}.

Definition sameDay (filterYear filterMonth filterDay : number) (entry : Reading) : bool :=
  let entryDate := entryDate entry in
  strict_eq (getFullYear entryDate) filterYear
  && strict_eq (getMonth entryDate) filterMonth
  && strict_eq (getDate entryDate) filterDay.

(** The day asked for: [(filterYear, filterMonth, filterDay)], each part
    from its query parameter when given and from [filterDate] otherwise. *)
Definition filterDateOf (now : Z) (date : option string) : number :=
  let currentDate := Num now in
  ifTruthy date (fun date => newDate (VStr date)) currentDate.

Definition filterMonthOf (now : Z) (date month : option string) : number :=
  ifTruthy month (fun month => sub (parseInt (VStr month) (Some 10)) 1)
           (getMonth (filterDateOf now date)).

Definition filterYearOf (now : Z) (date year : option string) : number :=
  ifTruthy year (fun year => parseInt (VStr year) (Some 10))
           (getFullYear (filterDateOf now date)).

Definition filterDayOf (now : Z) (date : option string) : number :=
  getDate (filterDateOf now date).

Definition dayLabel (filterYear filterMonth filterDay : number) : string :=
  ToString filterYear +:+ "-" +:+ ToString (add filterMonth 1) +:+ "-"
  +:+ ToString filterDay.

(** [app.get ('/tempdata')] *)
Definition getTempdata (now : Z) (date month year : option string) : M reply :=
  try_catch
    (weatherData ← readWeatherData ServerJs now;
     let filterMonth := filterMonthOf now date month in
     let filterYear := filterYearOf now date year in
     let filterDay := filterDayOf now date in
     let filteredData :=
       List.filter (sameDay filterYear filterMonth filterDay) weatherData in
     if (length filteredData =? 0)%nat then
       mret {| status := 404;
               payload := MessageBody "No data available for the specified day." |}
     else
       let temperatures := map (fun entry => Num (temperature entry)) filteredData in
       let highest := MathMax temperatures in
       let lowest := MathMin temperatures in
       mret {| status := 200;
               payload := MinMaxDayBody highest lowest
                            (dayLabel filterYear filterMonth filterDay) |})
    (internalError "Error retrieving temperature data:").

End Handlers.
End Server.

(** ** The second file *)

Module Part000.
Section Handlers.
Context `{Host}.

Record minMax : Type := {
  highest : option number;
  lowest : option number
}.

Definition findMinMaxTemperature (data : list Reading) (filterBy : string)
    (filterValue : value) : minMax :=
  let filteredData := filterData data filterBy filterValue in
  if (length filteredData =? 0)%nat then
    {| highest := None; lowest := None |}
  else
    let temperatures := map (fun entry => Num (temperature entry)) filteredData in
    {| highest := Some (MathMax temperatures); lowest := Some (MathMin temperatures) |}.

(** [app.get ('/tempdata')] *)
Definition getTempdata (now : Z) (filterBy filterValue : option string) : M reply :=
  try_catch
    (weatherData ← readWeatherData Part000 now;
     let filterBy := ifTruthy filterBy (fun filterBy => filterBy) "day" in
     let filterValue := of_query filterValue in
     if String.eqb filterBy "day" then
       let filterDay := getDate (newDate filterValue) in
       let r := findMinMaxTemperature weatherData filterBy (VNum filterDay) in
       mret {| status := 200; payload := MinMaxBody (highest r) (lowest r) |}
     else
       let r := findMinMaxTemperature weatherData filterBy filterValue in
       mret {| status := 200; payload := MinMaxBody (highest r) (lowest r) |})
    (internalError "Error retrieving temperature data:").

End Handlers.
End Part000.

(** ** Observing the model *)

Section Observations.
Context `{Host}.

(** Where the partition of the month of [now] lives. *)
Definition yearDir (now : Z) : string :=
  baseDir +:+ "/data_" +:+ show_Z (getCurrentYear now).

Definition partitionPath (now : Z) : string :=
  yearDir now +:+ "/weather_data_" +:+ getCurrentMonth now +:+ ".json".

(** The worlds the store operations lead to. *)
Definition withDir (dir : string) (w : world) : world :=
  if bool_decide (dir ∈ dirs w) || bool_decide (is_Some (files w !! dir)) then w
  else {| dirs := {[dir]} ∪ dirs w; files := files w; console := console w |}.

Definition logged (l : logline) (w : world) : world :=
  {| dirs := dirs w; files := files w; console := console w ++ [l] |}.

Definition stored (path text : string) (w : world) : world :=
  {| dirs := dirs w; files := <[path := Text text]> (files w); console := console w |}.

(** The sequence a partition file denotes, as [load] sees it. *)
Definition contents (n : option node) : list Reading :=
  match n with
  | Some (Text s) => match Json.parse s with Some rs => rs | None => [] end
  | _ => []
  end.

Definition partition (w : world) (now : Z) : list Reading :=
  contents (files w !! partitionPath now).

(** No file sits where the directory of the year of [now] belongs. (With a
    file there nothing can be read or made below it: the partition path is
    then a node that cannot be opened, not an absent one.) *)
Definition ordinary (w : world) (now : Z) : Prop := files w !! yearDir now = None.

(** The storage is there and the [try] block of [readWeatherData] throws on
    it: a node that cannot be opened, where [readFileSync] throws, or text
    that is no JSON, where [JSON.parse] throws. *)
Definition unparseable (n : option node) : Prop :=
  match n with
  | Some Unreadable => True
  | Some (Text s) => Json.notJson s
  | None => False
  end.

(** The integers a double holds exactly and a reading made of them. *)
Definition exactInteger (z : Z) : bool := Z.abs z <=? 2 ^ 53.

Definition exactReading (r : Reading) : bool :=
  exactInteger (temperature r) && exactInteger (humidity r)
  && exactInteger (timestamp r).

(** What the path holds is read by the model as the program reads it: text
    that is no JSON or the text of readings a double holds, a node that
    cannot be opened, or nothing. JSON of another shape is left out. *)
Definition faithful (n : option node) : Prop :=
  match n with
  | Some (Text s) =>
      Json.notJson s
      \/ exists rs, Json.parse s = Some rs /\ forallb exactReading rs = true
  | _ => True
  end.

(** The error the [catch] clause of [readWeatherData] sees then. *)
Definition readFailure (n : option node) : error :=
  match n with
  | Some (Text _) => SyntaxError
  | _ => EACCES
  end.

(** The test of [existingData.some]: the entry falls in the hour of day of
    [now]. *)
Definition inHour (now : Z) (entry : Reading) : bool :=
  strict_eq (getHours (entryDate entry)) (getHours (Num now)).

Definition sample (now apiTemperature apiHumidity : Z) : Reading :=
  {| temperature := apiTemperature; humidity := apiHumidity; timestamp := now |}.

Definition clockOk (now : Z) : bool := Z.abs now <=? maxTime.

(** What happens to the server: the scheduler or the start-up calls
    [fetchDataFromApi], or a request arrives at one of the handlers. *)
Inductive event : Type :=
| Ingest (ep : entryPoint) (now : Z) (response : option (Z * Z))
| GetWeather (ep : entryPoint) (now : Z) (filterBy filterValue : option string)
| GetTempdata (now : Z) (date month year : option string)
| GetTempdataPart000 (now : Z) (filterBy filterValue : option string).

Definition when (e : event) : Z :=
  match e with
  | Ingest _ now _ => now
  | GetWeather _ now _ _ => now
  | GetTempdata now _ _ _ => now
  | GetTempdataPart000 now _ _ => now
  end.

Definition exec (w : world) (e : event) : world :=
  match e with
  | Ingest ep now response => (fetchDataFromApi ep now response w).2
  | GetWeather ep now filterBy filterValue => (getWeather ep now filterBy filterValue w).2
  | GetTempdata now date month year => (Server.getTempdata now date month year w).2
  | GetTempdataPart000 now filterBy filterValue =>
      (Part000.getTempdata now filterBy filterValue w).2
  end.

(** The world after the events, from a disk with no data. *)
Definition run (events : list event) : world := fold_left exec events emptyWorld.

(** The hour of day a reading was taken at. *)
Definition hourOfDay (r : Reading) : Z := HourFromTime (LocalTime (timestamp r)).

(** A sequence of readings with valid timestamps and no hour of day twice. *)
Definition tidy (rs : list Reading) : Prop :=
  NoDup (map hourOfDay rs) /\ Forall (fun r => clockOk (timestamp r) = true) rs.

(** Every file is the text of a tidy sequence. *)
Definition wellKept (m : gmap string node) : Prop :=
  forall p n, m !! p = Some n -> exists rs, n = Text (Json.stringify rs) /\ tidy rs.

(** The hours of a day. *)
Definition hours : list Z := map Z.of_nat (seq 0 24).

(** Every hour of the day has a reading in the partition file. *)
Definition full (n : option node) : Prop :=
  forall h, 0 <= h < 24 -> In h (map hourOfDay (contents n)).

(** The readings [/tempdata] of [server.js] aggregates. *)
Definition selectedDay (now : Z) (date month year : option string)
    (weatherData : list Reading) : list Reading :=
  List.filter
    (Server.sameDay (Server.filterYearOf now date year) (Server.filterMonthOf now date month)
       (Server.filterDayOf now date))
    weatherData.

(** The label of the current day, as the template literal prints it. *)
Definition today (now : Z) : string :=
  show_Z (YearFromTime (LocalTime now)) +:+ "-"
  +:+ show_Z (MonthFromTime (LocalTime now) + 1) +:+ "-"
  +:+ show_Z (DateFromTime (LocalTime now)).

Definition dateCriteria : list string := ["day"; "month"; "year"].
Definition numberCriteria : list string := ["hour"; "timestamp"].

(** Local time is at or ahead of UTC, by at most the 14 hours of the
    easternmost zone. *)
Definition aheadOfUTC : Prop := forall t, 0 <= LocalTZA t <= 14 * msPerHour.

End Observations.

(** ** Sample data *)

Definition corruptWorld : world :=
  {| dirs := ∅;
     files := {[ "/srv/data_2024/weather_data_January.json" := Text "[{" ]};
     console := [] |}.

Definition twoReadings : list Reading :=
  [ {| temperature := 21; humidity := 40; timestamp := 1704412800000 |};
    {| temperature := 19; humidity := 44; timestamp := 1704416400000 |} ].

(** Three samples on the morning of 5 January 2024, Indian time, with
    temperatures 10, 22 and 15. *)
Definition morning : list event :=
  [ Ingest ServerJs 1704412800000 (Some (10, 40));
    Ingest ServerJs 1704416400000 (Some (22, 38));
    Ingest ServerJs 1704420000000 (Some (15, 41)) ].

Definition morningReadings : list Reading :=
  [ {| temperature := 10; humidity := 40; timestamp := 1704412800000 |};
    {| temperature := 22; humidity := 38; timestamp := 1704416400000 |};
    {| temperature := 15; humidity := 41; timestamp := 1704420000000 |} ].

(** 2024-01-05T03:00, 2024-01-05T14:00 and 2024-02-05T03:00 as local times. *)
Definition jan5_0300 : Z := 1704423600000.
Definition jan5_1400 : Z := 1704463200000.
Definition feb5_0300 : Z := 1707102000000.

Definition reading1 : Reading :=
  {| temperature := 18; humidity := 50; timestamp := jan5_0300 |}.
Definition reading2 : Reading :=
  {| temperature := 24; humidity := 45; timestamp := jan5_1400 |}.
Definition reading3 : Reading :=
  {| temperature := 16; humidity := 55; timestamp := feb5_0300 |}.

(** A host five hours behind UTC. *)
Definition westHost : Host :=
  {| LocalTZA := fun _ => -18000000; implParse := fun _ => NaN; baseDir := "/srv" |}.

(** ** Observing more of the model *)

Section MoreObservations.
Context `{Host}.

(** The value of a decimal numeral read digit by digit, as [parseInt] does. *)
Fixpoint horner (acc : Z) (d : uint) : Z :=
  match d with
  | Nil => acc
  | D0 l => horner (10 * acc + 0) l
  | D1 l => horner (10 * acc + 1) l
  | D2 l => horner (10 * acc + 2) l
  | D3 l => horner (10 * acc + 3) l
  | D4 l => horner (10 * acc + 4) l
  | D5 l => horner (10 * acc + 5) l
  | D6 l => horner (10 * acc + 6) l
  | D7 l => horner (10 * acc + 7) l
  | D8 l => horner (10 * acc + 8) l
  | D9 l => horner (10 * acc + 9) l
  end.

Definition chars (d : uint) : list ascii :=
  list_ascii_of_string (NilEmpty.string_of_uint d).

(** The test [filterData] applies to each entry, by criterion. *)
Definition keeps (filterBy : string) (filterValue : value) (entry : Reading) : bool :=
  if String.eqb filterBy "day" then
    strict_eq (getDate (entryDate entry)) (getDate (newDate filterValue))
  else if String.eqb filterBy "month" then
    strict_eq (getMonth (entryDate entry)) (getMonth (newDate filterValue))
  else if String.eqb filterBy "hour" then
    strict_eq (getHours (entryDate entry)) (parseInt filterValue None)
  else if String.eqb filterBy "timestamp" then
    strict_eq (Num (timestamp entry)) (parseInt filterValue None)
  else if String.eqb filterBy "year" then
    strict_eq (getFullYear (entryDate entry)) (getFullYear (newDate filterValue))
  else true.

(** The reading came from an ingestion of the run: an answered call of
    [fetchDataFromApi] at the instant of its timestamp with its two values. *)
Definition ingested (events : list event) (r : Reading) : Prop :=
  exists ep, In (Ingest ep (timestamp r) (Some (temperature r, humidity r))) events.

(** Every file is the text of a sequence of readings that were ingested and
    sit in the partition of their own timestamp. *)
Definition placed (events : list event) (m : gmap string node) : Prop :=
  forall p n, m !! p = Some n ->
    exists rs, n = Text (Json.stringify rs)
               /\ Forall (fun r => partitionPath (timestamp r) = p /\ ingested events r) rs.

(** The instants of the ingestions of a run, in order. *)
Definition ingestTimes (events : list event) : list Z :=
  flat_map (fun e => match e with Ingest _ now _ => [now] | _ => [] end) events.

(** The instants never go back, starting from [t]. *)
Fixpoint ascending (t : Z) (ts : list Z) : bool :=
  match ts with
  | [] => true
  | x :: rest => (t <=? x) && ascending x rest
  end.

Definition inOrder (ts : list Z) : bool :=
  match ts with
  | [] => true
  | t :: rest => ascending t rest
  end.

(** The clock never went back between two ingestions of the run. *)
Definition clockRuns (events : list event) : bool := inOrder (ingestTimes events).

(** Every file is the text of a sequence with timestamps in order, none
    after [T]. *)
Definition ordered (T : Z) (m : gmap string node) : Prop :=
  forall p n, m !! p = Some n ->
    exists rs, n = Text (Json.stringify rs)
               /\ inOrder (map timestamp rs) = true
               /\ Forall (fun r => timestamp r <= T) rs.

(** The event is a request to a handler, not an ingestion. *)
Definition isRequest (e : event) : bool :=
  match e with
  | Ingest _ _ _ => false
  | _ => true
  end.

(** The entry was taken on the first day of a month. *)
Definition onFirstOfMonth (entry : Reading) : bool :=
  strict_eq (getDate (entryDate entry)) (Num 1).

(** A query parameter that is given (not empty) and fails to parse. *)
Definition badParameter (q : option string) (parse : string -> number) : Prop :=
  exists s, q = Some s /\ s <> "" /\ parse s = NaN.

End MoreObservations.

(** A disk whose January partition cannot be opened. *)
Definition lockedWorld : world :=
  {| dirs := ∅;
     files := {[ "/srv/data_2024/weather_data_January.json" := Unreadable ]};
     console := [] |}.

(** * Properties *)

(** ** The calendar *)

Section Calendar.

(** [YearFromTime] is the year ECMA-262 defines: the one whose first day is
    at or before the day of [t] and whose successor starts after it. *)
Lemma YearFromTime_spec t :
  DayFromYear (YearFromTime t) <= Day t < DayFromYear (YearFromTime t + 1).
Proof.
  unfold YearFromTime. generalize (Day t). intros d.
  cbv zeta.
  destruct (Z.ltb_spec d (DayFromYear (1970 + d * 400 / 146097))) as [H1|H1].
  - revert H1. unfold DayFromYear. Z.to_euclidean_division_equations. lia.
  - destruct (Z.leb_spec (DayFromYear (1970 + d * 400 / 146097 + 1)) d) as [H2|H2].
    + revert H1 H2. unfold DayFromYear. Z.to_euclidean_division_equations. lia.
    + lia.
Qed.

Lemma DaysInYear_spec y : DayFromYear (y + 1) - DayFromYear y = DaysInYear y.
Proof.
  unfold DaysInYear, DayFromYear.
  destruct (Z.eqb_spec (y mod 4) 0); destruct (Z.eqb_spec (y mod 100) 0);
    destruct (Z.eqb_spec (y mod 400) 0); cbn [negb];
    Z.to_euclidean_division_equations; lia.
Qed.

(** The calendar fields depend on the day only. *)
Lemma YearFromTime_Day t t' : Day t = Day t' -> YearFromTime t = YearFromTime t'.
Proof. unfold YearFromTime. intros ->. reflexivity. Qed.

Lemma MonthFromTime_Day t t' : Day t = Day t' -> MonthFromTime t = MonthFromTime t'.
Proof.
  intros E. unfold MonthFromTime, DayWithinYear, InLeapYear.
  rewrite E, (YearFromTime_Day _ _ E). reflexivity.
Qed.

Lemma DateFromTime_Day t t' : Day t = Day t' -> DateFromTime t = DateFromTime t'.
Proof.
  intros E. unfold DateFromTime, DayWithinYear, InLeapYear.
  rewrite E, (YearFromTime_Day _ _ E), (MonthFromTime_Day _ _ E). reflexivity.
Qed.

Lemma Day_midnight_plus d x : 0 <= x < msPerDay -> Day (d * msPerDay + x) = d.
Proof.
  intros Hx. unfold Day. symmetry. apply (Z.div_unique_pos _ _ d x); lia.
Qed.

Lemma Day_midnight d : Day (d * msPerDay) = d.
Proof. unfold Day. apply Z.div_mul. discriminate. Qed.

End Calendar.

(** ** JSON: what is written is what is read *)

Module JsonFacts.

Import Json.

Lemma span_digits_stop k : no_digit_ahead k -> span_digits k = (Nil, k).
Proof.
  destruct k as [|c k]; simpl; [reflexivity|].
  intros ->. reflexivity.
Qed.

Lemma span_digits_print d k :
  no_digit_ahead k -> span_digits (NilEmpty.string_of_uint d +:+ k) = (d, k).
Proof.
  intros Hk. induction d; simpl; try rewrite IHd; try reflexivity.
  apply span_digits_stop, Hk.
Qed.

Lemma uint_beq_refl d : uint_beq d d = true.
Proof. induction d; simpl; auto. Qed.

Lemma to_uint_normal p : unorm (Pos.to_uint p) = Pos.to_uint p.
Proof.
  rewrite <- (DecimalPos.Unsigned.to_of (Pos.to_uint p)).
  rewrite DecimalPos.Unsigned.of_to. reflexivity.
Qed.

Lemma of_to_uint p : Z.of_uint (Pos.to_uint p) = Z.pos p.
Proof.
  unfold Z.of_uint. rewrite DecimalPos.Unsigned.of_to. reflexivity.
Qed.

Lemma parse_nat_print p k :
  no_digit_ahead k ->
  parse_nat (NilEmpty.string_of_uint (Pos.to_uint p) +:+ k) = Some (Z.pos p, k).
Proof.
  intros Hk. unfold parse_nat. rewrite (span_digits_print _ _ Hk).
  rewrite to_uint_normal, uint_beq_refl, of_to_uint.
  pose proof (DecimalPos.Unsigned.to_uint_nonnil p) as Hn.
  destruct (Pos.to_uint p); congruence.
Qed.

Lemma show_pos p : show_Z (Z.pos p) = NilEmpty.string_of_uint (Pos.to_uint p).
Proof.
  unfold show_Z. simpl. unfold NilZero.string_of_uint.
  pose proof (DecimalPos.Unsigned.to_uint_nonnil p) as Hn.
  destruct (Pos.to_uint p); congruence.
Qed.

Lemma show_neg p :
  show_Z (Z.neg p) = String "-" (NilEmpty.string_of_uint (Pos.to_uint p)).
Proof.
  unfold show_Z. simpl. unfold NilZero.string_of_uint.
  pose proof (DecimalPos.Unsigned.to_uint_nonnil p) as Hn.
  destruct (Pos.to_uint p); congruence.
Qed.

Lemma digits_not_minus p k :
  match NilEmpty.string_of_uint (Pos.to_uint p) +:+ k with
  | String "-"%char _ => False
  | _ => True
  end.
Proof.
  pose proof (DecimalPos.Unsigned.to_uint_nonnil p) as Hn.
  destruct (Pos.to_uint p); simpl; congruence || exact I.
Qed.

Lemma parse_int_print z k :
  ends_number k -> parse_int (show_Z z +:+ k) = Some (z, k).
Proof.
  intros [Hd Hf]. destruct z as [|p|p].
  - unfold parse_int. change (show_Z 0 +:+ k) with (String "0" k).
    cbv beta iota. unfold parse_nat. simpl span_digits.
    rewrite (span_digits_stop _ Hd). simpl. rewrite Hf. reflexivity.
  - rewrite show_pos. unfold parse_int.
    pose proof (digits_not_minus p k) as Hm.
    pose proof (parse_nat_print p k Hd) as Hp.
    destruct (NilEmpty.string_of_uint (Pos.to_uint p) +:+ k) as [|c s] eqn:E.
    + rewrite Hp, Hf. reflexivity.
    + destruct c as [[] [] [] [] [] [] [] []]; try (rewrite Hp, Hf; reflexivity).
      destruct Hm.
  - rewrite show_neg. unfold parse_int. simpl.
    rewrite (parse_nat_print p k Hd), Hf. reflexivity.
Qed.

Lemma skip_ws_idem s : skip_ws (skip_ws s) = skip_ws s.
Proof.
  induction s as [|c s IH]; simpl; [reflexivity|].
  destruct (is_ws c) eqn:E; [exact IH|]. simpl. rewrite E. reflexivity.
Qed.

Lemma expect_skip_ws c s : expect c (skip_ws s) = expect c s.
Proof. unfold expect. rewrite skip_ws_idem. reflexivity. Qed.

Lemma parse_object_skip_ws s : parse_object (skip_ws s) = parse_object s.
Proof. unfold parse_object. rewrite expect_skip_ws. reflexivity. Qed.

Lemma parse_elements_skip_ws fuel s :
  parse_elements fuel (skip_ws s) = parse_elements fuel s.
Proof. destruct fuel; simpl; [reflexivity|]. rewrite parse_object_skip_ws. reflexivity. Qed.

(** A number never starts with white space. *)
Lemma skip_ws_show z k : skip_ws (show_Z z +:+ k) = show_Z z +:+ k.
Proof.
  destruct z as [|p|p].
  - reflexivity.
  - rewrite show_pos.
    pose proof (DecimalPos.Unsigned.to_uint_nonnil p) as Hn.
    destruct (Pos.to_uint p); [congruence | reflexivity ..].
  - rewrite show_neg. reflexivity.
Qed.

Lemma span_key_plain name k :
  plain name = true -> span_key (name +:+ String quote k) = Some (name, k).
Proof.
  induction name as [|c name IH]; intros Hp.
  - reflexivity.
  - simpl in Hp. apply andb_prop in Hp as [Hc Hn].
    unfold plain_char in Hc. apply andb_prop in Hc as [Hq Hb].
    simpl. destruct (Ascii.eqb c quote); [discriminate|].
    destruct (Ascii.eqb c "\"%char || (N_of_ascii c <? 32)%N); [discriminate|].
    rewrite (IH Hn). reflexivity.
Qed.

Lemma parse_member_put name v k :
  plain name = true -> ends_number k ->
  parse_member name (String quote (name +:+ String quote (": " +:+ show_Z v +:+ k)))
  = Some (v, k).
Proof.
  intros Hp Hk. unfold parse_member.
  rewrite Ascii.eqb_refl, (span_key_plain _ _ Hp), String.eqb_refl.
  change (skip_ws (": " +:+ show_Z v +:+ k))
    with (String ":"%char (" " +:+ show_Z v +:+ k)).
  cbv iota beta.
  change (skip_ws (" " +:+ show_Z v +:+ k)) with (skip_ws (show_Z v +:+ k)).
  rewrite skip_ws_show. apply parse_int_print, Hk.
Qed.

Lemma parse_object_put r k :
  parse_object (put_object r k) = Some (r, skip_ws k).
Proof.
  destruct r as [t h ts]. unfold parse_object, put_object, put_member.
  cbn [temperature humidity timestamp].
  set (k3 := nl +:+ "  }" +:+ k).
  set (m3 := String quote ("timestamp" +:+ String quote (": " +:+ show_Z ts +:+ k3))).
  set (k2 := "," +:+ nl +:+ "    " +:+ m3).
  set (m2 := String quote ("humidity" +:+ String quote (": " +:+ show_Z h +:+ k2))).
  set (k1 := "," +:+ nl +:+ "    " +:+ m2).
  set (m1 := String quote ("temperature" +:+ String quote (": " +:+ show_Z t +:+ k1))).
  change (expect "{" ("  {" +:+ nl +:+ "    " +:+ m1)) with (Some m1).
  cbv iota beta. subst m1.
  rewrite parse_member_put; [|reflexivity|split; reflexivity].
  change (expect "," k1) with (Some m2).
  cbv iota beta. subst m2.
  rewrite parse_member_put; [|reflexivity|split; reflexivity].
  change (expect "," k2) with (Some m3).
  cbv iota beta. subst m3.
  rewrite parse_member_put; [|reflexivity|split; reflexivity].
  change (expect "}" k3) with (Some (skip_ws k)).
  reflexivity.
Qed.

Lemma length_append a b :
  String.length (a +:+ b) = (String.length a + String.length b)%nat.
Proof. induction a as [|c a IH]; simpl; [reflexivity | now rewrite IH]. Qed.

Lemma put_object_longer r k : (String.length k < String.length (put_object r k))%nat.
Proof.
  unfold put_object, put_member, nl.
  repeat (rewrite length_append || cbn [String.length]). lia.
Qed.

Lemma put_elements_fuel rs k :
  (length rs + String.length k <= String.length (put_elements rs k))%nat.
Proof.
  induction rs as [|r rest IH]; [simpl; lia|].
  destruct rest as [|r' rest']; cbn [put_elements length] in *.
  - pose proof (put_object_longer r k). lia.
  - pose proof (put_object_longer r ("," +:+ nl +:+ put_elements (r' :: rest') k)) as Hl.
    rewrite !length_append in Hl. cbn [put_elements] in Hl. lia.
Qed.

Lemma parse_elements_put rs k fuel :
  rs <> [] -> (length rs <= fuel)%nat ->
  parse_elements fuel (put_elements rs (nl +:+ "]" +:+ k)) = Some (rs, k).
Proof.
  revert fuel. induction rs as [|r rest IH]; intros fuel Hne Hf; [congruence|].
  destruct fuel as [|fuel]; [simpl in Hf; lia|].
  cbn [parse_elements put_elements]. rewrite parse_object_put.
  destruct rest as [|r' rest'].
  - reflexivity.
  - change (skip_ws ("," +:+ nl +:+ put_elements (r' :: rest') (nl +:+ "]" +:+ k)))
      with (String ","%char (nl +:+ put_elements (r' :: rest') (nl +:+ "]" +:+ k))).
    cbv iota beta.
    change (skip_ws (nl +:+ put_elements (r' :: rest') (nl +:+ "]" +:+ k)))
      with (skip_ws (put_elements (r' :: rest') (nl +:+ "]" +:+ k))).
    rewrite parse_elements_skip_ws, IH; [reflexivity|congruence|simpl in *; lia].
Qed.

(** [JSON.parse (JSON.stringify (data, null, 2))] is [data]. *)
Lemma parse_stringify rs : parse (stringify rs) = Some rs.
Proof.
  destruct rs as [|r rest]; [reflexivity|].
  unfold parse, stringify.
  set (body := put_elements (r :: rest) (nl +:+ "]")).
  change (expect "[" ("[" +:+ nl +:+ body)) with (Some (skip_ws body)).
  cbv iota beta.
  assert (Hs : exists k, skip_ws body = String "{"%char k).
  { subst body. cbn [put_elements]. unfold put_object. simpl. eauto. }
  destruct Hs as [k Hs].
  assert (Hp : parse_elements (String.length ("[" +:+ nl +:+ body)) (skip_ws body)
               = Some (r :: rest, EmptyString)).
  { rewrite parse_elements_skip_ws. subst body.
    apply (parse_elements_put (r :: rest) EmptyString); [congruence|].
    pose proof (put_elements_fuel (r :: rest) (nl +:+ "]")) as Hl.
    rewrite !length_append. lia. }
  rewrite Hs in *. rewrite Hp. reflexivity.
Qed.

(** *** The texts the model reads are JSON

    Every text [parse] reads as a sequence of readings is accepted by the
    grammar, so a text that is no JSON is one [parse] answers [None] on. *)

Lemma digit_is_digit c d : digit_of c = Some d -> is_digit c = true.
Proof. unfold is_digit. intros ->. reflexivity. Qed.

Lemma span_digits_skip s : skip_digits s = (span_digits s).2.
Proof.
  induction s as [|c s IH]; [reflexivity|].
  simpl. unfold is_digit. destruct (digit_of c); [|reflexivity].
  rewrite IH. destruct (span_digits s). reflexivity.
Qed.

Lemma digit_of_nonnil c d x : digit_of c = Some d -> d x <> Nil.
Proof.
  destruct c as [[] [] [] [] [] [] [] []]; vm_compute; intros E; try discriminate E;
    injection E as <-; discriminate.
Qed.

Lemma nzhead_no_zero d : match nzhead d with D0 _ => False | _ => True end.
Proof. induction d; simpl; auto. Qed.

Lemma unorm_leading_zero d : unorm (D0 d) = D0 d -> d = Nil.
Proof.
  unfold unorm. change (nzhead (D0 d)) with (nzhead d).
  pose proof (nzhead_no_zero d) as Hz.
  destruct (nzhead d); intros E; try discriminate; try (destruct Hz).
  injection E as <-. reflexivity.
Qed.

Lemma uint_beq_eq a b : uint_beq a b = true -> a = b.
Proof. apply internal_uint_dec_bl. Qed.

Lemma parse_nat_scan s z k :
  parse_nat s = Some (z, k) ->
  scan_int s = Some k /\ exists c r, s = String c r /\ is_digit c = true.
Proof.
  unfold parse_nat. destruct s as [|c r]; [discriminate|].
  cbn [span_digits]. destruct (digit_of c) as [d|] eqn:Ed; [|discriminate].
  pose proof (span_digits_skip r) as Hs.
  destruct (span_digits r) as [ds k'] eqn:Er. simpl in Hs.
  intros Hp.
  assert (Hk : k' = k).
  { destruct (d ds); try discriminate;
      destruct (uint_beq _ _); try discriminate; congruence. }
  rewrite Hk in *. clear Hk.
  split; [|exists c, r; split; [reflexivity | eapply digit_is_digit; eauto]].
  unfold scan_int. rewrite (digit_is_digit _ _ Ed), Hs.
  destruct (Ascii.eqb_spec c "0") as [->|Hc]; [|reflexivity].
  assert (d = D0) as -> by (vm_compute in Ed; injection Ed; auto).
  destruct (uint_beq (unorm (D0 ds)) (D0 ds)) eqn:Eb; [|discriminate].
  apply uint_beq_eq, unorm_leading_zero in Eb. subst ds.
  destruct r as [|c' r']; simpl in *. 1: congruence.
  destruct (digit_of c') as [d'|] eqn:Ed'; [|congruence].
  destruct (span_digits r') as [ds' k'']. injection Er as Er _.
  destruct (digit_of_nonnil _ _ ds' Ed' Er).
Qed.

Lemma starts_fraction_scan k :
  starts_fraction k = false -> scan_frac k = Some k /\ scan_exp k = Some k.
Proof.
  destruct k as [|c k]; [auto|]. unfold starts_fraction, scan_frac, scan_exp.
  intros Hf. apply orb_false_elim in Hf as [Hf He2]. apply orb_false_elim in Hf as [Hd He1].
  destruct (Ascii.eqb_spec c "."); [subst; discriminate|].
  destruct (Ascii.eqb_spec c "e"); [subst; discriminate|].
  destruct (Ascii.eqb_spec c "E"); [subst; discriminate|].
  auto.
Qed.

Lemma parse_int_scan s z k :
  parse_int s = Some (z, k) -> scan_number s = Some k /\ starts_number s.
Proof.
  unfold parse_int, scan_number.
  assert (Hcase : (exists r, s = String "-" r) \/
                  (match s with String "-"%char rest => (true, rest) | _ => (false, s) end
                   = (false, s)
                   /\ match s with
                      | String c rest => if Ascii.eqb c "-" then rest else s
                      | EmptyString => s
                      end = s)).
  { destruct s as [|c r]; [right; auto|].
    destruct (Ascii.eqb_spec c "-") as [->|Hc]; [left; eauto|right].
    split; [|reflexivity].
    destruct c as [[] [] [] [] [] [] [] []]; try reflexivity. congruence. }
  destruct Hcase as [[r ->]|[E1 E2]].
  - simpl. destruct (parse_nat r) as [[n k']|] eqn:Ep; [|discriminate].
    destruct (starts_fraction k') eqn:Ef; [discriminate|].
    intros [= <- <-]. apply parse_nat_scan in Ep as [-> _].
    apply starts_fraction_scan in Ef as [-> ->]. auto.
  - rewrite E1, E2. destruct (parse_nat s) as [[n k']|] eqn:Ep; [|discriminate].
    destruct (starts_fraction k') eqn:Ef; [discriminate|].
    intros [= <- <-]. apply parse_nat_scan in Ep as [-> (c & r & -> & Hd)].
    apply starts_fraction_scan in Ef as [-> ->]. simpl. auto.
Qed.

Lemma scan_value_number fuel s :
  starts_number s -> scan_value (S fuel) s = scan_number s.
Proof.
  destruct s as [|c r]; [intros []|]. intros Hs. cbn [scan_value].
  assert (Hc : Ascii.eqb c "{" = false /\ Ascii.eqb c "[" = false
               /\ Ascii.eqb c quote = false /\ Ascii.eqb c "t" = false
               /\ Ascii.eqb c "f" = false /\ Ascii.eqb c "n" = false).
  { destruct Hs as [->|Hd]; [repeat split|].
    destruct c as [[] [] [] [] [] [] [] []]; try discriminate Hd; repeat split. }
  destruct Hc as (-> & -> & -> & -> & -> & ->). reflexivity.
Qed.

Lemma span_key_scan s key k : span_key s = Some (key, k) -> scan_string s = Some k.
Proof.
  revert key. induction s as [|c s IH]; intros key; [discriminate|].
  simpl. destruct (Ascii.eqb c quote); [congruence|].
  destruct (Ascii.eqb c "\"); [discriminate|]. simpl.
  destruct (N_of_ascii c <? 32)%N; [discriminate|].
  destruct (span_key s) as [[key' k']|]; [|discriminate].
  intros [= <- <-]. eapply IH. reflexivity.
Qed.

(** One member of an object of the data model, as the grammar scans it: the
    name, the colon and the number. *)
Lemma parse_member_scan name s v k :
  parse_member name s = Some (v, k) ->
  exists r s1 s2, s = String quote r /\ scan_string r = Some s1
    /\ skip_ws s1 = String ":" s2
    /\ forall fuel, scan_value (S fuel) (skip_ws s2) = Some k.
Proof.
  unfold parse_member. destruct s as [|c r]; [discriminate|].
  destruct (Ascii.eqb_spec c quote) as [->|]; [|discriminate].
  destruct (span_key r) as [[key k1]|] eqn:Ek; [|discriminate].
  destruct (String.eqb key name); [|discriminate].
  destruct (skip_ws k1) as [|c2 s2] eqn:Ew; [discriminate|].
  destruct (Ascii.eqb_spec c2 ":") as [->|Hc].
  - intros Hp. exists r, k1, s2. split; [reflexivity|].
    split; [eapply span_key_scan; eauto|]. split; [exact Ew|].
    intros fuel. apply parse_int_scan in Hp as [Hn Hs].
    rewrite scan_value_number; auto.
  - destruct c2 as [[] [] [] [] [] [] [] []]; try discriminate. congruence.
Qed.

Lemma expect_inv c s k :
  expect c s = Some k -> exists r, skip_ws s = String c r /\ k = skip_ws r.
Proof.
  unfold expect. destruct (skip_ws s) as [|c' r]; [discriminate|].
  destruct (Ascii.eqb_spec c c') as [->|]; [|discriminate].
  intros [= <-]. eauto.
Qed.

Lemma skip_ws_start c r s : skip_ws s = String c r -> is_ws c = false.
Proof.
  induction s as [|a s IH]; [discriminate|]. simpl.
  destruct (is_ws a) eqn:E; [exact IH|]. intros [= <- <-]. exact E.
Qed.

Lemma scan_members_step fuel r s1 s2 s3 c4 s4 :
  scan_string r = Some s1 -> skip_ws s1 = String ":" s2 ->
  scan_value fuel (skip_ws s2) = Some s3 -> skip_ws s3 = String c4 s4 ->
  scan_members (S fuel) (String quote r) =
  if Ascii.eqb c4 "," then scan_members fuel (skip_ws s4)
  else if Ascii.eqb c4 "}" then Some s4 else None.
Proof.
  intros H1 H2 H3 H4. cbn [scan_members]. rewrite Ascii.eqb_refl, H1, H2.
  rewrite Ascii.eqb_refl, H3, H4. reflexivity.
Qed.

(** An object of the data model is an object of the grammar. *)
Lemma parse_object_scan s r k :
  parse_object s = Some (r, k) ->
  exists s1, (forall fuel, scan_value (5 + fuel) (skip_ws s) = Some s1) /\ skip_ws s1 = k.
Proof.
  unfold parse_object.
  destruct (expect "{" s) as [a1|] eqn:E1; [|discriminate].
  destruct (parse_member "temperature" a1) as [[t a2]|] eqn:M1; [|discriminate].
  destruct (expect "," a2) as [a3|] eqn:E2; [|discriminate].
  destruct (parse_member "humidity" a3) as [[h a4]|] eqn:M2; [|discriminate].
  destruct (expect "," a4) as [a5|] eqn:E3; [|discriminate].
  destruct (parse_member "timestamp" a5) as [[ts a6]|] eqn:M3; [|discriminate].
  destruct (expect "}" a6) as [a7|] eqn:E4; [|discriminate].
  intros [= <- <-].
  apply expect_inv in E1 as (b1 & W1 & ->).
  apply expect_inv in E2 as (b2 & W2 & ->).
  apply expect_inv in E3 as (b3 & W3 & ->).
  apply expect_inv in E4 as (b4 & W4 & ->).
  apply parse_member_scan in M1 as (r1 & x1 & y1 & Q1 & S1 & C1 & V1).
  apply parse_member_scan in M2 as (r2 & x2 & y2 & Q2 & S2 & C2 & V2).
  apply parse_member_scan in M3 as (r3 & x3 & y3 & Q3 & S3 & C3 & V3).
  exists b4. split; [|reflexivity]. intros fuel.
  rewrite W1. change (5 + fuel)%nat with (S (S (S (S (S fuel))))).
  cbn [scan_value]. rewrite Q1. simpl (Ascii.eqb "{" "{").
  cbv iota. change (Ascii.eqb quote "}") with false. cbv iota.
  rewrite (scan_members_step _ _ _ _ _ _ _ S1 C1 (V1 _) W2). simpl (Ascii.eqb "," ","). cbv iota.
  rewrite Q2.
  rewrite (scan_members_step _ _ _ _ _ _ _ S2 C2 (V2 _) W3). simpl (Ascii.eqb "," ","). cbv iota.
  rewrite Q3.
  rewrite (scan_members_step _ _ _ _ _ _ _ S3 C3 (V3 _) W4). reflexivity.
Qed.

Lemma parse_elements_scan n s rs k :
  parse_elements n s = Some (rs, k) ->
  forall fuel, scan_elements (length rs + 5 + fuel) (skip_ws s) = Some k.
Proof.
  revert s rs. induction n as [|n IH]; intros s rs; [discriminate|].
  cbn [parse_elements].
  destruct (parse_object s) as [[r s1]|] eqn:Eo; [|discriminate].
  apply parse_object_scan in Eo as (x & Hx & Wx).
  destruct s1 as [|c s2]; [discriminate|].
  destruct (Ascii.eqb_spec c ",") as [->|Hc1].
  - destruct (parse_elements n (skip_ws s2)) as [[rs' k']|] eqn:Er; [|discriminate].
    intros [= <- <-] fuel. pose proof (IH _ _ Er) as Hr. rewrite skip_ws_idem in Hr.
    change (length (r :: rs') + 5 + fuel)%nat with (S (length rs' + 5 + fuel)).
    cbn [scan_elements].
    replace (length rs' + 5 + fuel)%nat with (5 + (length rs' + fuel))%nat at 1 by lia.
    rewrite Hx, Wx. simpl (Ascii.eqb "," ","). cbv iota. apply Hr.
  - destruct (Ascii.eqb_spec c "]") as [->|Hc2].
    + intros [= <- <-] fuel.
      change (length [r] + 5 + fuel)%nat with (S (5 + fuel)).
      cbn [scan_elements]. rewrite Hx, Wx. reflexivity.
    + destruct c as [[] [] [] [] [] [] [] []]; try discriminate; congruence.
Qed.

(** Every text the model reads as a sequence of readings is JSON. *)
Lemma parse_isJson s rs : parse s = Some rs -> isJson s.
Proof.
  unfold parse. destruct (expect "[" s) as [s1|] eqn:E; [|discriminate].
  apply expect_inv in E as (r & W & ->). intros Hp0.
  assert (Hcase : (exists k, skip_ws r = String "]" k /\ skip_ws k = EmptyString)
                  \/ (exists k, parse_elements (String.length s) (skip_ws r) = Some (rs, k)
                                /\ skip_ws k = EmptyString
                                /\ exists c r', skip_ws r = String c r' /\ c <> "]"%char)).
  { destruct (skip_ws r) as [|c r'] eqn:Er.
    - destruct (String.length s); discriminate.
    - destruct (Ascii.eqb_spec c "]") as [->|Hc].
      + left. exists r'. split; [reflexivity|]. destruct (skip_ws r'); [reflexivity|discriminate].
      + right.
        assert (Hp : match parse_elements (String.length s) (String c r') with
                     | Some (rs0, k) => match skip_ws k with EmptyString => Some rs0 | _ => None end
                     | None => None end = Some rs).
        { destruct c as [[] [] [] [] [] [] [] []]; try exact Hp0; congruence. }
        destruct (parse_elements _ _) as [[rs0 k]|]; [|discriminate].
        exists k. destruct (skip_ws k) eqn:Ek; [|discriminate].
        injection Hp as ->. split; [reflexivity|]. split; [reflexivity|]. eauto. }
  destruct Hcase as [(k & Hk & He) | (k & Hp & He & c & r' & Hr & Hc)].
  - exists 1%nat. unfold accepts. rewrite W. cbn [scan_value].
    simpl (Ascii.eqb "[" "{"). simpl (Ascii.eqb "[" "["). cbv iota.
    rewrite Hk, Ascii.eqb_refl, He. reflexivity.
  - pose proof (parse_elements_scan _ _ _ _ Hp O) as Hq. rewrite skip_ws_idem in Hq.
    exists (S (length rs + 5 + 0)). unfold accepts. rewrite W. cbn [scan_value].
    simpl (Ascii.eqb "[" "{"). simpl (Ascii.eqb "[" "["). cbv iota.
    rewrite Hr in *. destruct (Ascii.eqb_spec c "]"); [congruence|].
    rewrite Hq, He. reflexivity.
Qed.

Lemma notJson_parse s : notJson s -> parse s = None.
Proof.
  intros Hn. destruct (parse s) as [rs|] eqn:E; [|reflexivity].
  apply parse_isJson in E as [fuel Hf]. rewrite Hn in Hf. discriminate.
Qed.

(** What the program writes is JSON. *)
Lemma stringify_isJson rs : isJson (stringify rs).
Proof. apply (parse_isJson _ rs), parse_stringify. Qed.

(** JSON of another shape than the data model's: the grammar accepts it,
    [parse] has no readings for it. *)
Lemma other_shapes :
  (isJson "{}" /\ parse "{}" = None)
  /\ (isJson "[21.5]" /\ parse "[21.5]" = None)
  /\ (isJson " [ 1e3 , null ] " /\ parse " [ 1e3 , null ] " = None).
Proof. repeat split; try (exists 4%nat); reflexivity. Qed.

(** A text that breaks off after an opening brace is no JSON. *)
Lemma broken_text_notJson : notJson "[{".
Proof. intros [|[|[|fuel]]]; reflexivity. Qed.

End JsonFacts.

(** ** The partition store *)

Section StoreFacts.
Context `{Host}.

Lemma files_withDir dir w : files (withDir dir w) = files w.
Proof. unfold withDir. destruct (_ || _); reflexivity. Qed.

Lemma console_withDir dir w : console (withDir dir w) = console w.
Proof. unfold withDir. destruct (_ || _); reflexivity. Qed.

(** Without a file in its place the directory is there afterwards. *)
Lemma dirs_withDir dir w : files w !! dir = None -> dir ∈ dirs (withDir dir w).
Proof.
  intros Hf. unfold withDir. destruct (bool_decide (dir ∈ dirs w)) eqn:E.
  - apply bool_decide_eq_true in E. exact E.
  - rewrite bool_decide_eq_false_2 by (rewrite Hf; apply is_Some_None).
    simpl. set_solver.
Qed.

Lemma dirs_withDir_file dir w : is_Some (files w !! dir) -> withDir dir w = w.
Proof.
  intros Hf. unfold withDir. rewrite (bool_decide_eq_true_2 _ Hf), orb_true_r. reflexivity.
Qed.

Lemma dirs_withDir_more dir w : dirs w ⊆ dirs (withDir dir w).
Proof. unfold withDir. destruct (_ || _); simpl; set_solver. Qed.

(** Something is at the path after the first look, so a second look makes
    nothing, whatever was logged or stored in between. *)
Lemma withDir_again dir w w' :
  dirs w' = dirs (withDir dir w) ->
  (forall q, is_Some (files w !! q) -> is_Some (files w' !! q)) ->
  withDir dir w' = w'.
Proof.
  intros Hd Hf. unfold withDir at 1.
  destruct (bool_decide (is_Some (files w !! dir))) eqn:Ef.
  - apply bool_decide_eq_true in Ef.
    rewrite (bool_decide_eq_true_2 _ (Hf _ Ef)), orb_true_r. reflexivity.
  - rewrite bool_decide_eq_true_2; [reflexivity|]. rewrite Hd.
    apply dirs_withDir. apply bool_decide_eq_false in Ef.
    destruct (files w !! dir) eqn:E; [|reflexivity]. destruct Ef. eauto.
Qed.

Lemma console_log_run msg w : console_log msg w = (Ok tt, logged (Log msg) w).
Proof. reflexivity. Qed.

Lemma console_error_run msg err w :
  console_error msg err w = (Ok tt, logged (LogError msg err) w).
Proof. reflexivity. Qed.

Lemma getDataFilePath_run now w :
  getDataFilePath now w = (Ok (partitionPath now), withDir (yearDir now) w).
Proof.
  unfold getDataFilePath, mbind, M_bind, existsSync, withDir.
  fold (yearDir now).
  destruct (bool_decide (yearDir now ∈ dirs w) || bool_decide (is_Some (files w !! yearDir now)));
    reflexivity.
Qed.

Lemma writeWeatherData_run now data w :
  writeWeatherData now data w =
  match files w !! partitionPath now with
  | Some Unreadable => (Throw EACCES, withDir (yearDir now) w)
  | _ => (Ok tt, stored (partitionPath now) (Json.stringify data) (withDir (yearDir now) w))
  end.
Proof.
  unfold writeWeatherData, mbind, M_bind. rewrite getDataFilePath_run.
  unfold writeFileSync.
  destruct (files (withDir (yearDir now) w) !! partitionPath now) as [[|s]|] eqn:E;
    rewrite files_withDir in E; rewrite E; reflexivity.
Qed.

Lemma readWeatherData_run ep now w :
  readWeatherData ep now w =
  let w0 := withDir (yearDir now) w in
  match files w !! partitionPath now with
  | None =>
      (Ok [],
       stored (partitionPath now) "[]"
         (logged (Log ("Creating new file for " +:+ getCurrentMonth now +:+ " in "
                       +:+ show_Z (getCurrentYear now))) w0))
  | Some Unreadable => (Ok [], logged (LogError (readErrorMessage ep now) EACCES) w0)
  | Some (Text s) =>
      match Json.parse s with
      | Some rs => (Ok rs, w0)
      | None => (Ok [], logged (LogError (readErrorMessage ep now) SyntaxError) w0)
      end
  end.
Proof.
  unfold readWeatherData, mbind at 1, M_bind at 1. rewrite getDataFilePath_run.
  unfold try_catch, mbind at 1, M_bind at 1, readFileSync.
  destruct (files (withDir (yearDir now) w) !! partitionPath now) as [[|s]|] eqn:E;
    rewrite files_withDir in E; rewrite E; cbv zeta.
  - reflexivity.
  - unfold JSON_parse. destruct (Json.parse s); reflexivity.
  - unfold mbind, M_bind. rewrite console_log_run, writeWeatherData_run.
    replace (files (logged _ (withDir (yearDir now) w)) !! partitionPath now)
      with (@None node) by (symmetry; simpl; rewrite files_withDir; exact E).
    rewrite (withDir_again _ w); [reflexivity|reflexivity|].
    intros q Hq. simpl. rewrite files_withDir. exact Hq.
Qed.

(** Text the program wrote from readings a double holds is read by the
    model as the program reads it. *)
Lemma faithful_text n rs :
  n = Some (Text (Json.stringify rs)) -> forallb exactReading rs = true -> faithful n.
Proof.
  intros -> Hrs. right. exists rs. split; [apply JsonFacts.parse_stringify|exact Hrs].
Qed.

End StoreFacts.

Section FailOpen.
Context `{Host}.

(** C5. A partition whose storage is present but cannot be read makes
    [readWeatherData] log the failure with [console.error] and return the
    empty sequence, whether the node cannot be opened or its text is no JSON:
    nothing is thrown to the caller and no file changes. *)
Theorem load_fails_open ep now w :
  unparseable (files w !! partitionPath now) ->
  exists w',
    readWeatherData ep now w = (Ok [], w')
    /\ files w' = files w
    /\ console w' =
         (console w ++
          [LogError (readErrorMessage ep now)
                    (readFailure (files w !! partitionPath now))])%list.
Proof.
  intros Hu. rewrite readWeatherData_run. cbv zeta.
  destruct (files w !! partitionPath now) as [[|s]|]; simpl in Hu; [| |destruct Hu].
  - eexists. split; [reflexivity|]. simpl. rewrite files_withDir, console_withDir. auto.
  - rewrite (JsonFacts.notJson_parse _ Hu).
    eexists. split; [reflexivity|]. simpl. rewrite files_withDir, console_withDir. auto.
Qed.

End FailOpen.

Lemma load_fails_open_witness :
  exists w',
    readWeatherData (H := utcHost) ServerJs 1704412800000 corruptWorld = (Ok [], w')
    /\ files w' = files corruptWorld
    /\ console w' = [LogError "Error reading weather data:" SyntaxError].
Proof.
  apply (load_fails_open (H := utcHost) ServerJs 1704412800000 corruptWorld).
  exact JsonFacts.broken_text_notJson.
Defined.

Section CreateAndRoundTrip.
Context `{Host}.

(** C7. When the partition of [now] has no file yet and nothing but a
    directory can be where the directory of the year belongs, a
    [readWeatherData] that returns has made the directory and written the
    file with the empty sequence, has logged that and returns the empty
    sequence, touching no other file; a first [writeWeatherData] that
    returns has made the directory and the file as well, with what it was
    given. Either way the file is there afterwards. *)
Theorem load_creates_partition ep now w data w' :
  files w !! partitionPath now = None ->
  ordinary w now ->
  readWeatherData ep now w = (Ok data, w') ->
  data = []
  /\ files w' = <[partitionPath now := Text (Json.stringify [])]> (files w)
  /\ files w' !! partitionPath now = Some (Text "[]")
  /\ partition w' now = []
  /\ yearDir now ∈ dirs w'
  /\ console w'
     = console w ++ [Log ("Creating new file for " +:+ getCurrentMonth now +:+ " in "
                          +:+ show_Z (getCurrentYear now))]
  /\ forall saved w'',
       writeWeatherData now saved w = (Ok tt, w'') ->
       files w'' = <[partitionPath now := Text (Json.stringify saved)]> (files w)
       /\ partition w'' now = saved
       /\ yearDir now ∈ dirs w''.
Proof.
  intros Habs Hord Hr. rewrite readWeatherData_run, Habs in Hr. cbv zeta in Hr.
  injection Hr as <- <-. split; [reflexivity|]. simpl files.
  rewrite files_withDir. split; [reflexivity|].
  split; [apply lookup_insert_eq|].
  split; [unfold partition; simpl; rewrite lookup_insert_eq; reflexivity|].
  split; [simpl; apply dirs_withDir, Hord|].
  split; [simpl; rewrite console_withDir; reflexivity|].
  intros saved w'' Hw. rewrite writeWeatherData_run, Habs in Hw. injection Hw as <-.
  simpl files. rewrite files_withDir. split; [reflexivity|].
  split; [|simpl; apply dirs_withDir, Hord].
  unfold partition. simpl. rewrite files_withDir, lookup_insert_eq. cbn [contents].
  rewrite JsonFacts.parse_stringify. reflexivity.
Qed.

(** C8. A sequence saved with [writeWeatherData] is what [readWeatherData]
    returns next for the same partition, element by element in the same
    order, and the read changes no file. *)
Theorem save_then_load ep now now' data w w1 :
  writeWeatherData now data w = (Ok tt, w1) ->
  partitionPath now' = partitionPath now ->
  exists w2,
    readWeatherData ep now' w1 = (Ok data, w2) /\ files w2 = files w1.
Proof.
  intros Hw Hp. rewrite writeWeatherData_run in Hw.
  rewrite readWeatherData_run, Hp. cbv zeta.
  destruct (files w !! partitionPath now) as [[|s]|]; try discriminate;
    injection Hw as <-; simpl files; rewrite lookup_insert_eq, JsonFacts.parse_stringify;
    eexists; (split; [reflexivity|]); rewrite files_withDir; reflexivity.
Qed.

End CreateAndRoundTrip.

Lemma load_creates_partition_witness :
  let now := 1704412800000 in
  let w' := (readWeatherData (H := istHost) Part000 now emptyWorld).2 in
  [] = @nil Reading
  /\ files w' = <[partitionPath (H := istHost) now := Text (Json.stringify [])]>
                  (files emptyWorld)
  /\ files w' !! partitionPath (H := istHost) now = Some (Text "[]")
  /\ partition (H := istHost) w' now = []
  /\ yearDir (H := istHost) now ∈ dirs w'
  /\ console w'
     = console emptyWorld
       ++ [Log ("Creating new file for " +:+ getCurrentMonth (H := istHost) now +:+ " in "
                +:+ show_Z (getCurrentYear (H := istHost) now))]
  /\ forall saved w'',
       writeWeatherData (H := istHost) now saved emptyWorld = (Ok tt, w'') ->
       files w'' = <[partitionPath (H := istHost) now := Text (Json.stringify saved)]>
                     (files emptyWorld)
       /\ partition (H := istHost) w'' now = saved
       /\ yearDir (H := istHost) now ∈ dirs w''.
Proof.
  apply (load_creates_partition (H := istHost) Part000 1704412800000 emptyWorld []).
  - reflexivity.
  - reflexivity.
  - vm_compute. reflexivity.
Defined.

Lemma save_then_load_witness :
  exists w2,
    readWeatherData (H := istHost) ServerJs 1704420000000
      (writeWeatherData (H := istHost) 1704416400000 twoReadings emptyWorld).2
    = (Ok twoReadings, w2)
    /\ files w2 = files (writeWeatherData (H := istHost) 1704416400000 twoReadings emptyWorld).2.
Proof.
  apply (save_then_load (H := istHost) ServerJs 1704416400000 1704420000000 twoReadings
           emptyWorld).
  - vm_compute. reflexivity.
  - vm_compute. reflexivity.
Defined.
(** ** Ingestion *)

(** Reading the files of a world behind its log lines and directories. *)
Ltac files_simpl :=
  repeat (progress cbn [files logged stored snd fst] || rewrite files_withDir).

Ltac look E :=
  match goal with
  | |- context [files ?w0 !! ?p] =>
      let E' := fresh in
      assert (E' : files w0 !! p = _)
        by (cbn [files logged stored]; rewrite ?files_withDir; exact E);
      rewrite E'; clear E'
  end.

Section IngestFacts.
Context `{Host}.

Lemma fetch_failed_run ep now w :
  fetchDataFromApi ep now None w
  = (Ok tt, logged (LogError "Error fetching data from API:" RequestFailed) w).
Proof. reflexivity. Qed.

Lemma fetch_run ep now t h w :
  fetchDataFromApi ep now (Some (t, h)) w =
  match readWeatherData ep now w with
  | (Ok existingData, w0) =>
      if existsb (inHour now) existingData
      then (Ok tt, logged (Log "Data for the current hour already exists.") w0)
      else
        match writeWeatherData now (existingData ++ [sample now t h]) w0 with
        | (Ok _, w1) => (Ok tt, logged (Log "Data fetched and saved successfully.") w1)
        | (Throw e, w1) => (Ok tt, logged (LogError "Error fetching data from API:" e) w1)
        end
  | (Throw e, w0) => (Ok tt, logged (LogError "Error fetching data from API:" e) w0)
  end.
Proof.
  unfold fetchDataFromApi, try_catch, mbind, M_bind.
  destruct (readWeatherData ep now w) as [[rs|e] w0]; [|reflexivity].
  fold (inHour now). fold (sample now t h).
  destruct (existsb (inHour now) rs); simpl; [reflexivity|].
  destruct (writeWeatherData now (rs ++ [sample now t h]) w0) as [[[]|e] w1]; reflexivity.
Qed.

(** A covered hour. When the sequence that [fetchDataFromApi] loads holds a
    reading in the hour of day of [now], the call writes nothing: every file
    is as [readWeatherData] left it, which is as it was; the call ends
    normally and logs that the hour is covered. *)
Lemma ingest_skips_covered_hour ep now t h w existingData w0 :
  readWeatherData ep now w = (Ok existingData, w0) ->
  existsb (inHour now) existingData = true ->
  fetchDataFromApi ep now (Some (t, h)) w
  = (Ok tt, logged (Log "Data for the current hour already exists.") w0)
  /\ files w0 = files w.
Proof.
  intros Hr He. rewrite fetch_run, Hr, He. split; [reflexivity|].
  rewrite readWeatherData_run in Hr. cbv zeta in Hr.
  destruct (files w !! partitionPath now) as [[|s]|].
  - injection Hr as <- <-. discriminate.
  - destruct (Json.parse s); injection Hr as <- <-; simpl; try discriminate.
    apply files_withDir.
  - injection Hr as <- <-. discriminate.
Qed.

(** What an ingestion does to the files. *)
Lemma fetch_files ep now response w :
  files (fetchDataFromApi ep now response w).2 =
  match response, files w !! partitionPath now with
  | None, _ => files w
  | Some _, Some Unreadable => files w
  | Some (t, h), n =>
      if existsb (inHour now) (contents n) then
        match n with
        | None => <[partitionPath now := Text (Json.stringify [])]> (files w)
        | _ => files w
        end
      else
        <[partitionPath now := Text (Json.stringify (contents n ++ [sample now t h]))]>
          (files w)
  end.
Proof.
  destruct response as [[t h]|]; [|reflexivity].
  rewrite fetch_run, readWeatherData_run. cbv zeta.
  destruct (files w !! partitionPath now) as [[|s]|] eqn:E.
  - cbn [existsb]. rewrite writeWeatherData_run. look E. files_simpl. reflexivity.
  - unfold contents. destruct (Json.parse s) as [rs|].
    + destruct (existsb (inHour now) rs).
      * files_simpl. reflexivity.
      * rewrite writeWeatherData_run. look E. files_simpl. reflexivity.
    + cbn [existsb]. rewrite writeWeatherData_run. look E. files_simpl. reflexivity.
  - cbn [existsb contents]. rewrite writeWeatherData_run.
    match goal with
    | |- context [files ?w0 !! ?p] =>
        replace (files w0 !! p) with (Some (Text (Json.stringify [])))
          by (symmetry; apply lookup_insert_eq)
    end.
    files_simpl. apply insert_insert_eq.
Qed.

End IngestFacts.

Section ListFacts.
Context `{Host}.

Lemma filter_none {A} (f : A -> bool) l : (forall x, f x = false) -> List.filter f l = [].
Proof.
  intros Hf. induction l as [|x l IH]; simpl; [reflexivity|]. rewrite Hf. exact IH.
Qed.

Lemma filter_none_In {A} (f : A -> bool) l :
  (forall x, In x l -> f x = false) -> List.filter f l = [].
Proof.
  induction l as [|x l IH]; simpl; intros Hf; [reflexivity|].
  rewrite (Hf x) by auto. apply IH. auto.
Qed.

Lemma existsb_false_filter {A} (f : A -> bool) l :
  existsb f l = false -> List.filter f l = [].
Proof.
  induction l as [|x l IH]; simpl; [reflexivity|].
  destruct (f x); simpl; [discriminate|exact IH].
Qed.

Lemma existsb_true_filter {A} (f : A -> bool) l :
  existsb f l = true -> (1 <= length (List.filter f l))%nat.
Proof.
  induction l as [|x l IH]; simpl; [discriminate|].
  destruct (f x); simpl; [lia|exact IH].
Qed.

Lemma filter_nonempty_existsb {A} (f : A -> bool) l :
  (1 <= length (List.filter f l))%nat -> existsb f l = true.
Proof.
  destruct (existsb f l) eqn:E; [reflexivity|].
  rewrite (existsb_false_filter _ _ E). simpl. lia.
Qed.

Lemma inHour_sample now t h : clockOk now = true -> inHour now (sample now t h) = true.
Proof.
  unfold clockOk, inHour, entryDate, sample, newDate, TimeClip. simpl timestamp.
  intros ->. simpl. apply Z.eqb_refl.
Qed.

End ListFacts.

(** ** The server as a run of events *)

Section Runs.
Context `{Host}.

Lemma read_files ep now w :
  files (readWeatherData ep now w).2 =
  match files w !! partitionPath now with
  | None => <[partitionPath now := Text (Json.stringify [])]> (files w)
  | Some _ => files w
  end.
Proof.
  rewrite readWeatherData_run. cbv zeta.
  destruct (files w !! partitionPath now) as [[|s]|].
  - files_simpl. reflexivity.
  - destruct (Json.parse s); files_simpl; reflexivity.
  - files_simpl. reflexivity.
Qed.

Lemma read_ok ep now w : exists rs, (readWeatherData ep now w).1 = Ok rs.
Proof.
  rewrite readWeatherData_run. cbv zeta.
  destruct (files w !! partitionPath now) as [[|s]|]; [| |simpl; eauto].
  - simpl; eauto.
  - destruct (Json.parse s); simpl; eauto.
Qed.

Lemma getWeather_files ep now filterBy filterValue w :
  files (getWeather ep now filterBy filterValue w).2 = files (readWeatherData ep now w).2.
Proof.
  unfold getWeather, try_catch, mbind, M_bind.
  destruct (read_ok ep now w) as [rs Hrs].
  destruct (readWeatherData ep now w) as [[rs'|e] w0]; simpl in *; [reflexivity|discriminate].
Qed.

Lemma getTempdata_files now date month year w :
  files (Server.getTempdata now date month year w).2
  = files (readWeatherData ServerJs now w).2.
Proof.
  unfold Server.getTempdata, try_catch, mbind, M_bind.
  destruct (read_ok ServerJs now w) as [rs Hrs].
  destruct (readWeatherData ServerJs now w) as [[rs'|e] w0]; simpl in *; [|discriminate].
  match goal with |- context [if ?b then _ else _] => destruct b end; reflexivity.
Qed.

Lemma getTempdataPart000_files now filterBy filterValue w :
  files (Part000.getTempdata now filterBy filterValue w).2
  = files (readWeatherData Part000 now w).2.
Proof.
  unfold Part000.getTempdata, try_catch, mbind, M_bind.
  destruct (read_ok Part000 now w) as [rs Hrs].
  destruct (readWeatherData Part000 now w) as [[rs'|e] w0]; simpl in *; [|discriminate].
  match goal with |- context [if ?b then _ else _] => destruct b end; reflexivity.
Qed.

Lemma tidy_nil : tidy [].
Proof. split; constructor. Qed.

Lemma wellKept_insert m p rs : wellKept m -> tidy rs ->
  wellKept (<[p := Text (Json.stringify rs)]> m).
Proof.
  intros Hm Hrs q n. rewrite lookup_insert. case_decide.
  - intros [= <-]. eauto.
  - apply Hm.
Qed.

Lemma wellKept_read ep now w :
  wellKept (files w) -> wellKept (files (readWeatherData ep now w).2).
Proof.
  intros Hw. rewrite read_files.
  destruct (files w !! partitionPath now); [exact Hw|].
  apply wellKept_insert; [exact Hw|apply tidy_nil].
Qed.

(** On readings with valid timestamps the test of [some] compares hours. *)
Lemma inHour_hourOfDay now r :
  clockOk (timestamp r) = true ->
  inHour now r = (hourOfDay r =? HourFromTime (LocalTime now)).
Proof.
  unfold clockOk, inHour, entryDate, newDate, TimeClip, hourOfDay. intros ->. reflexivity.
Qed.

Lemma existsb_inHour now rs :
  Forall (fun r => clockOk (timestamp r) = true) rs ->
  existsb (inHour now) rs = true <-> In (HourFromTime (LocalTime now)) (map hourOfDay rs).
Proof.
  induction 1 as [|r rs Hr Hrs IH]; simpl.
  - split; [discriminate|tauto].
  - rewrite orb_true_iff, IH, (inHour_hourOfDay _ _ Hr), Z.eqb_eq. tauto.
Qed.

Lemma tidy_snoc now t h rs :
  clockOk now = true -> tidy rs -> existsb (inHour now) rs = false ->
  tidy (rs ++ [sample now t h]).
Proof.
  intros Hc [Hnd Hv] Hex. split.
  - rewrite map_app. simpl. apply NoDup_app. split; [exact Hnd|]. split.
    + intros x Hx Hx'. apply list_elem_of_In in Hx.
      apply list_elem_of_singleton in Hx'. subst x.
      change (hourOfDay (sample now t h)) with (HourFromTime (LocalTime now)) in Hx.
      apply (existsb_inHour now rs Hv) in Hx. congruence.
    + apply NoDup_singleton.
  - apply Forall_app. split; [exact Hv|]. constructor; [exact Hc|constructor].
Qed.

Lemma wellKept_ingest ep now response w :
  clockOk now = true -> wellKept (files w) ->
  wellKept (files (fetchDataFromApi ep now response w).2).
Proof.
  intros Hc Hw. rewrite fetch_files.
  destruct response as [[t h]|]; [|exact Hw].
  destruct (files w !! partitionPath now) as [[|s]|] eqn:E; [exact Hw| |]; cbv zeta.
  - destruct (Hw _ _ E) as (rs & [= ->] & Hrs).
    cbn [contents]. rewrite JsonFacts.parse_stringify.
    destruct (existsb (inHour now) rs) eqn:Ex; [exact Hw|].
    apply wellKept_insert; [exact Hw|]. apply tidy_snoc; assumption.
  - cbn [contents existsb app]. apply wellKept_insert; [exact Hw|].
    apply (tidy_snoc now t h []); [exact Hc|apply tidy_nil|reflexivity].
Qed.

Lemma wellKept_exec w e :
  clockOk (when e) = true -> wellKept (files w) -> wellKept (files (exec w e)).
Proof.
  destruct e; simpl; intros Hc Hw.
  - apply wellKept_ingest; assumption.
  - rewrite getWeather_files. apply wellKept_read, Hw.
  - rewrite getTempdata_files. apply wellKept_read, Hw.
  - rewrite getTempdataPart000_files. apply wellKept_read, Hw.
Qed.

Lemma wellKept_run_from events w :
  forallb (fun e => clockOk (when e)) events = true ->
  wellKept (files w) -> wellKept (files (fold_left exec events w)).
Proof.
  revert w. induction events as [|e events IH]; intros w Hc Hw; [exact Hw|].
  simpl in Hc. apply andb_prop in Hc as [He Hc].
  simpl. apply IH; [exact Hc|]. apply wellKept_exec; assumption.
Qed.

Lemma wellKept_run events :
  forallb (fun e => clockOk (when e)) events = true -> wellKept (files (run events)).
Proof.
  intros Hc. apply wellKept_run_from; [exact Hc|].
  intros p n. simpl. rewrite lookup_empty. discriminate.
Qed.

End Runs.

Section Idempotence.
Context `{Host}.

Lemma filter_hour_unique rs h :
  NoDup (map hourOfDay rs) ->
  (length (List.filter (fun r => (hourOfDay r =? h)%Z) rs) <= 1)%nat.
Proof.
  induction rs as [|r rs IH]; simpl; [lia|].
  intros Hnd. apply NoDup_cons in Hnd as [Hr Hnd].
  destruct (Z.eqb_spec (hourOfDay r) h) as [E|_]; [|apply IH, Hnd].
  simpl. rewrite (filter_none_In (fun r0 => hourOfDay r0 =? h)); [simpl; lia|].
  intros x Hx. apply Z.eqb_neq. intros Ex. apply Hr.
  rewrite E, <- Ex. apply list_elem_of_In, in_map, Hx.
Qed.

Lemma filter_inHour now rs :
  Forall (fun r => clockOk (timestamp r) = true) rs ->
  List.filter (inHour now) rs
  = List.filter (fun r => hourOfDay r =? HourFromTime (LocalTime now)) rs.
Proof.
  induction 1 as [|r rs Hr Hrs IH]; simpl; [reflexivity|].
  rewrite (inHour_hourOfDay _ _ Hr), IH. reflexivity.
Qed.

(** A tidy sequence has at most one reading in any hour of the day. *)
Lemma tidy_hour_count now rs :
  tidy rs -> (length (List.filter (inHour now) rs) <= 1)%nat.
Proof.
  intros [Hnd Hv]. rewrite (filter_inHour _ _ Hv). apply filter_hour_unique, Hnd.
Qed.

Lemma wellKept_partition w now : wellKept (files w) -> tidy (partition w now).
Proof.
  intros Hw. unfold partition.
  destruct (files w !! partitionPath now) as [n|] eqn:E; [|apply tidy_nil].
  destruct (Hw _ _ E) as (rs & -> & Hrs). cbn [contents].
  rewrite JsonFacts.parse_stringify. exact Hrs.
Qed.

(** One ingestion in the hour of day of [now1], on the partition of [now1]:
    with an answer from the sensor the partition has one reading of that hour
    afterwards; a partition that has one already is not written; neither is
    any file when the sensor does not answer. *)
Lemma ingest_hour_step ep now now1 response w :
  clockOk now = true ->
  partitionPath now = partitionPath now1 ->
  getHours (Num now) = getHours (Num now1) ->
  wellKept (files w) ->
  let w' := (fetchDataFromApi ep now response w).2 in
  (is_Some response -> length (List.filter (inHour now1) (partition w' now1)) = 1%nat)
  /\ (length (List.filter (inHour now1) (partition w now1)) = 1%nat -> files w' = files w)
  /\ (response = None -> files w' = files w).
Proof.
  intros Hc Hp Hh Hw w'.
  assert (Hsame : forall rs, existsb (inHour now) rs = existsb (inHour now1) rs).
  { intros rs. unfold inHour. rewrite Hh. reflexivity. }
  assert (Hnew : forall t h, inHour now1 (sample now t h) = true).
  { intros t h. rewrite <- (inHour_sample now t h Hc). unfold inHour. rewrite Hh.
    reflexivity. }
  pose proof (tidy_hour_count now1 _ (wellKept_partition w now1 Hw)) as Hle.
  subst w'. unfold partition in *. rewrite fetch_files, Hp.
  destruct response as [[t h]|]; [|split; [intros [? [=]]|split; reflexivity]].
  destruct (files w !! partitionPath now1) as [[|s]|] eqn:E.
  - destruct (Hw _ _ E) as (rs & [=] & _).
  - destruct (Hw _ _ E) as (rs & [= ->] & Hrs). cbv zeta. cbn [contents] in *.
    rewrite JsonFacts.parse_stringify in *. rewrite Hsame.
    destruct (existsb (inHour now1) rs) eqn:Ex.
    + rewrite E. cbn [contents]. rewrite JsonFacts.parse_stringify.
      apply existsb_true_filter in Ex. split; [intros _; lia|]. split; [reflexivity|discriminate].
    + rewrite lookup_insert_eq. cbn [contents]. rewrite JsonFacts.parse_stringify.
      rewrite List.filter_app, length_app, (existsb_false_filter _ _ Ex).
      cbn [List.filter]. rewrite Hnew. split; [reflexivity|].
      split; [simpl; discriminate|discriminate].
  - cbv zeta. cbn [contents existsb app]. rewrite lookup_insert_eq. cbn [contents].
    rewrite JsonFacts.parse_stringify. cbn [List.filter]. rewrite Hnew.
    split; [reflexivity|]. split; [simpl; discriminate|discriminate].
Qed.

(** C2. (1) When the sequence that [fetchDataFromApi] loads holds a reading
    in the hour of day of [now], the call writes nothing, ends normally and
    logs that the hour is covered. (2) After any run of the server, two
    calls in the same hour of day on the same partition leave exactly one
    reading of that hour in it as soon as the sensor answered one of them
    (and never more than one), and when it answered the first, the second
    changes no file. *)
Theorem ingest_idempotent_per_hour ep :
  (forall now t h w existingData w0,
      readWeatherData ep now w = (Ok existingData, w0) ->
      existsb (inHour now) existingData = true ->
      fetchDataFromApi ep now (Some (t, h)) w
      = (Ok tt, logged (Log "Data for the current hour already exists.") w0)
      /\ files w0 = files w)
  /\
  (forall events now1 now2 response1 response2,
      forallb (fun e => clockOk (when e)) events = true ->
      clockOk now1 = true ->
      clockOk now2 = true ->
      partitionPath now2 = partitionPath now1 ->
      getHours (Num now2) = getHours (Num now1) ->
      let w1 := exec (run events) (Ingest ep now1 response1) in
      let w2 := exec w1 (Ingest ep now2 response2) in
      let stored := List.filter (inHour now1) (partition w2 now1) in
      (length stored <= 1)%nat
      /\ (is_Some response1 \/ is_Some response2 -> length stored = 1%nat)
      /\ (is_Some response1 -> files w2 = files w1)).
Proof.
  split; [intros; eapply ingest_skips_covered_hour; eauto|].
  intros events now1 now2 response1 response2 Hev Hc1 Hc2 Hp Hh.
  cbv zeta. cbn [exec].
  set (w1 := (fetchDataFromApi ep now1 response1 (run events)).2).
  set (w2 := (fetchDataFromApi ep now2 response2 w1).2).
  pose proof (wellKept_run events Hev) as Hw0.
  assert (Hw1 : wellKept (files w1)) by (apply wellKept_ingest; assumption).
  assert (Hw2 : wellKept (files w2)) by (apply wellKept_ingest; assumption).
  destruct (ingest_hour_step ep now1 now1 response1 (run events) Hc1 eq_refl eq_refl Hw0)
    as (Hone1 & _ & _).
  destruct (ingest_hour_step ep now2 now1 response2 w1 Hc2 Hp Hh Hw1)
    as (Hone2 & Hkeep2 & Hnone2).
  fold w1 in Hone1. fold w2 in Hone2, Hkeep2, Hnone2.
  split; [apply tidy_hour_count, wellKept_partition, Hw2|]. split.
  - intros [Hr1|Hr2]; [|exact (Hone2 Hr2)].
    unfold partition. rewrite (Hkeep2 (Hone1 Hr1)). exact (Hone1 Hr1).
  - intros Hr1. exact (Hkeep2 (Hone1 Hr1)).
Qed.

End Idempotence.

Lemma ingest_idempotent_per_hour_witness :
  (fetchDataFromApi (H := istHost) ServerJs 1704421000000 (Some (30, 30))
     (run (H := istHost) morning)
   = (Ok tt,
      logged (Log "Data for the current hour already exists.")
        (readWeatherData (H := istHost) ServerJs 1704421000000 (run (H := istHost) morning)).2)
   /\ files (readWeatherData (H := istHost) ServerJs 1704421000000
               (run (H := istHost) morning)).2
      = files (run (H := istHost) morning))
  /\
  (let w1 := exec (H := istHost) (run (H := istHost) morning)
               (Ingest ServerJs 1704423600000 (Some (21, 40))) in
   let w2 := exec (H := istHost) w1 (Ingest ServerJs 1704424800000 (Some (22, 41))) in
   let stored := List.filter (inHour (H := istHost) 1704423600000)
                   (partition (H := istHost) w2 1704423600000) in
   (length stored <= 1)%nat
   /\ (is_Some (Some (21, 40)) \/ is_Some (Some (22, 41)) -> length stored = 1%nat)
   /\ (is_Some (Some (21, 40)) -> files w2 = files w1)).
Proof.
  split.
  - apply (proj1 (ingest_idempotent_per_hour (H := istHost) ServerJs)
             1704421000000 30 30 (run (H := istHost) morning) morningReadings).
    + vm_compute. reflexivity.
    + vm_compute. reflexivity.
  - apply (proj2 (ingest_idempotent_per_hour (H := istHost) ServerJs)
             morning 1704423600000 1704424800000 (Some (21, 40)) (Some (22, 41))).
    + reflexivity.
    + reflexivity.
    + reflexivity.
    + vm_compute. reflexivity.
    + vm_compute. reflexivity.
Defined.

Section HourlySlots.
Context `{Host}.

Lemma HourFromTime_range t : 0 <= HourFromTime t < 24.
Proof. unfold HourFromTime. apply Z.mod_pos_bound. lia. Qed.

Lemma in_hours h : 0 <= h < 24 -> In h hours.
Proof.
  intros Hh. unfold hours. rewrite <- (Z2Nat.id h) by lia.
  apply in_map, in_seq. lia.
Qed.

(** No more readings than hours in a day. *)
Lemma distinct_hours_bound rs : NoDup (map hourOfDay rs) -> (length rs <= 24)%nat.
Proof.
  intros Hnd. rewrite <- (length_map hourOfDay rs).
  change 24%nat with (length hours).
  apply NoDup_incl_length; [apply NoDup_ListNoDup, Hnd|].
  intros h Hin. apply in_map_iff in Hin as (r & <- & _).
  apply in_hours, HourFromTime_range.
Qed.

Lemma full_is_file n : full n -> exists s, n = Some (Text s).
Proof.
  intros Hf. specialize (Hf 0 ltac:(lia)).
  destruct n as [[|s]|]; simpl in Hf; try tauto. eauto.
Qed.

(** A full partition is left alone by whatever happens next. *)
Lemma full_frozen w e p :
  wellKept (files w) -> full (files w !! p) -> files (exec w e) !! p = files w !! p.
Proof.
  intros Hw Hfull. destruct (full_is_file _ Hfull) as [s Hs].
  assert (Hread : forall ep now, files (readWeatherData ep now w).2 !! p = files w !! p).
  { intros ep now. rewrite read_files.
    destruct (files w !! partitionPath now) eqn:E; [reflexivity|].
    apply lookup_insert_ne. congruence. }
  destruct e as [ep now response| | |]; simpl.
  - rewrite fetch_files. destruct response as [[t h]|]; [|reflexivity].
    destruct (decide (partitionPath now = p)) as [->|Hne].
    + rewrite Hs. cbv zeta. destruct (Hw _ _ Hs) as (rs & [= ->] & Hnd & Hv).
      rewrite Hs in Hfull. unfold full in Hfull. cbn [contents] in *.
      rewrite JsonFacts.parse_stringify in *.
      replace (existsb (inHour now) rs) with true; [exact Hs|].
      symmetry. apply existsb_inHour; [exact Hv|]. apply Hfull, HourFromTime_range.
    + destruct (files w !! partitionPath now) as [[|s']|]; [reflexivity| |]; cbv zeta.
      * destruct (existsb _ _); [reflexivity|]. apply lookup_insert_ne, Hne.
      * destruct (existsb _ _); apply lookup_insert_ne, Hne.
  - rewrite getWeather_files. apply Hread.
  - rewrite getTempdata_files. apply Hread.
  - rewrite getTempdataPart000_files. apply Hread.
Qed.

Lemma full_frozen_run later w p :
  forallb (fun e => clockOk (when e)) later = true ->
  wellKept (files w) -> full (files w !! p) ->
  files (fold_left exec later w) !! p = files w !! p.
Proof.
  revert w. induction later as [|e later IH]; intros w Hc Hw Hfull; [reflexivity|].
  simpl in Hc. apply andb_prop in Hc as [He Hc]. simpl.
  pose proof (full_frozen w e p Hw Hfull) as Hstep.
  rewrite IH; [exact Hstep|exact Hc|apply wellKept_exec; assumption|].
  rewrite Hstep. exact Hfull.
Qed.

(** C9. After any run of ingestions and requests from an empty disk, every
    partition file holds a sequence with no hour of day twice, hence of at
    most 24 readings; and a partition that has a reading for each of the 24
    hours is never written again, whatever happens later. *)
Theorem one_reading_per_hour_of_day events :
  forallb (fun e => clockOk (when e)) events = true ->
  (forall p n, files (run events) !! p = Some n ->
     exists rs, n = Text (Json.stringify rs)
                /\ NoDup (map hourOfDay rs) /\ (length rs <= 24)%nat)
  /\
  (forall now later,
     forallb (fun e => clockOk (when e)) later = true ->
     full (files (run events) !! partitionPath now) ->
     files (run (events ++ later)) !! partitionPath now
     = files (run events) !! partitionPath now).
Proof.
  intros Hc. pose proof (wellKept_run events Hc) as Hw. split.
  - intros p n Hp. destruct (Hw p n Hp) as (rs & -> & Hnd & Hv).
    exists rs. split; [reflexivity|]. split; [exact Hnd|].
    apply distinct_hours_bound, Hnd.
  - intros now later Hl Hfull. unfold run. rewrite fold_left_app.
    apply full_frozen_run; assumption.
Qed.

End HourlySlots.

Lemma one_reading_per_hour_of_day_witness :
  let events :=
    [ Ingest ServerJs 1704412800000 (Some (21, 40));
      GetWeather ServerJs 1704413000000 None None;
      Ingest ServerJs 1704414000000 (Some (22, 41));
      Ingest ServerJs 1704416400000 None;
      Ingest ServerJs 1704416460000 (Some (19, 45)) ] in
  (forall p n, files (run (H := istHost) events) !! p = Some n ->
     exists rs, n = Text (Json.stringify rs)
                /\ NoDup (map (hourOfDay (H := istHost)) rs) /\ (length rs <= 24)%nat)
  /\
  (forall now later,
     forallb (fun e => clockOk (when e)) later = true ->
     full (H := istHost) (files (run (H := istHost) events) !! partitionPath (H := istHost) now) ->
     files (run (H := istHost) (events ++ later)) !! partitionPath (H := istHost) now
     = files (run (H := istHost) events) !! partitionPath (H := istHost) now).
Proof.
  intros events. apply (one_reading_per_hour_of_day (H := istHost) events). reflexivity.
Defined.
(** ** Queries *)

Section QueryFacts.
Context `{Host}.

Lemma strict_eq_NaN a : strict_eq a NaN = false.
Proof. destruct a; reflexivity. Qed.

Lemma filter_NaN (g : Reading -> number) data :
  List.filter (fun entry => strict_eq (g entry) NaN) data = [].
Proof. apply filter_none. intros x. apply strict_eq_NaN. Qed.

Lemma fold_max_Num xs a :
  fold_left max2 (map Num xs) (Num a) = Num (fold_left Z.max xs a).
Proof. revert a. induction xs as [|x xs IH]; intros a; simpl; [reflexivity|apply IH]. Qed.

Lemma fold_min_Num xs a :
  fold_left min2 (map Num xs) (Num a) = Num (fold_left Z.min xs a).
Proof. revert a. induction xs as [|x xs IH]; intros a; simpl; [reflexivity|apply IH]. Qed.

Lemma fold_max_spec xs a :
  let m := fold_left Z.max xs a in
  In m (a :: xs) /\ a <= m /\ Forall (fun x => x <= m) xs.
Proof.
  revert a. induction xs as [|x xs IH]; intros a; simpl.
  - split; [auto|]. split; [lia|constructor].
  - destruct (IH (Z.max a x)) as (Hin & Hle & Hall). split; [|split].
    + destruct Hin as [Hm|Hm]; [|auto]. rewrite <- Hm.
      destruct (Z.max_spec a x) as [[_ ->]|[_ ->]]; auto.
    + lia.
    + constructor; [lia|exact Hall].
Qed.

Lemma fold_min_spec xs a :
  let m := fold_left Z.min xs a in
  In m (a :: xs) /\ m <= a /\ Forall (fun x => m <= x) xs.
Proof.
  revert a. induction xs as [|x xs IH]; intros a; simpl.
  - split; [auto|]. split; [lia|constructor].
  - destruct (IH (Z.min a x)) as (Hin & Hle & Hall). split; [|split].
    + destruct Hin as [Hm|Hm]; [|auto]. rewrite <- Hm.
      destruct (Z.min_spec a x) as [[_ ->]|[_ ->]]; auto.
    + lia.
    + constructor; [lia|exact Hall].
Qed.

(** [Math.max] of a non-empty list of temperatures is its greatest element. *)
Lemma MathMax_greatest xs :
  xs <> [] ->
  exists hi, MathMax (map Num xs) = Num hi /\ In hi xs /\ Forall (fun x => x <= hi) xs.
Proof.
  destruct xs as [|x xs]; [congruence|]. intros _.
  unfold MathMax. simpl. rewrite fold_max_Num.
  destruct (fold_max_spec xs x) as (Hin & Hle & Hall).
  eexists. split; [reflexivity|]. split; [exact Hin|]. constructor; assumption.
Qed.

Lemma MathMin_least xs :
  xs <> [] ->
  exists lo, MathMin (map Num xs) = Num lo /\ In lo xs /\ Forall (fun x => lo <= x) xs.
Proof.
  destruct xs as [|x xs]; [congruence|]. intros _.
  unfold MathMin. simpl. rewrite fold_min_Num.
  destruct (fold_min_spec xs x) as (Hin & Hle & Hall).
  eexists. split; [reflexivity|]. split; [exact Hin|]. constructor; assumption.
Qed.

Lemma getTempdata_run now date month year w :
  Server.getTempdata now date month year w =
  match readWeatherData ServerJs now w with
  | (Ok weatherData, w0) =>
      let filteredData := selectedDay now date month year weatherData in
      if (length filteredData =? 0)%nat then
        (Ok {| status := 404;
               payload := MessageBody "No data available for the specified day." |}, w0)
      else
        let temperatures := map (fun entry => Num (temperature entry)) filteredData in
        (Ok {| status := 200;
               payload := MinMaxDayBody (MathMax temperatures) (MathMin temperatures)
                            (Server.dayLabel (Server.filterYearOf now date year)
                               (Server.filterMonthOf now date month)
                               (Server.filterDayOf now date)) |}, w0)
  | (Throw e, w0) =>
      (Ok {| status := 500; payload := ErrorBody "Internal Server Error" |},
       logged (LogError "Error retrieving temperature data:" e) w0)
  end.
Proof.
  unfold Server.getTempdata, try_catch, mbind, M_bind.
  destruct (readWeatherData ServerJs now w) as [[rs|e] w0]; [|reflexivity].
  fold (selectedDay now date month year rs). cbv zeta.
  destruct (length (selectedDay now date month year rs) =? 0)%nat; reflexivity.
Qed.

(** C3. When no stored reading falls on the day asked for, [/tempdata] of
    [server.js] answers 404 with the message, whatever the partition holds. *)
Theorem tempdata_not_found now date month year w weatherData w0 :
  readWeatherData ServerJs now w = (Ok weatherData, w0) ->
  selectedDay now date month year weatherData = [] ->
  Server.getTempdata now date month year w
  = (Ok {| status := 404;
           payload := MessageBody "No data available for the specified day." |}, w0).
Proof.
  intros Hr Hs. rewrite getTempdata_run, Hr. cbv zeta. rewrite Hs. reflexivity.
Qed.

End QueryFacts.

Section DayQuery.
Context `{Host}.

Lemma ifTruthy_unfold {A} (q : option string) (f : string -> A) (g : A) :
  ifTruthy q f g = if truthy q then f (default "" q) else g.
Proof. destruct q as [s|]; reflexivity. Qed.

(** The test of [/tempdata] holds of a reading exactly when its timestamp
    is a valid time value and the three parts asked for are the year, the
    month and the day of the month of its local date. *)
Lemma sameDay_true filterYear filterMonth filterDay r :
  Server.sameDay filterYear filterMonth filterDay r = true
  <-> clockOk (timestamp r) = true
      /\ filterYear = Num (YearFromTime (LocalTime (timestamp r)))
      /\ filterMonth = Num (MonthFromTime (LocalTime (timestamp r)))
      /\ filterDay = Num (DateFromTime (LocalTime (timestamp r))).
Proof.
  unfold Server.sameDay, entryDate, newDate, TimeClip, clockOk.
  destruct (Z.abs (timestamp r) <=? maxTime).
  - cbn [getFullYear getMonth getDate]. rewrite !andb_true_iff.
    destruct filterYear, filterMonth, filterDay; cbn [strict_eq];
      try (split; [intros [[? ?] ?]|intros (_ & ? & ? & ?)]; discriminate).
    rewrite !Z.eqb_eq. split.
    + intros [[-> ->] ->]. auto.
    + intros (_ & [= ->] & [= ->] & [= ->]). auto.
  - cbn [getFullYear strict_eq andb]. split; [discriminate|intros [? _]; discriminate].
Qed.

Lemma sameDay_Num y m d r :
  Server.sameDay (Num y) (Num m) (Num d) r
  = clockOk (timestamp r)
    && (YearFromTime (LocalTime (timestamp r)) =? y)
    && (MonthFromTime (LocalTime (timestamp r)) =? m)
    && (DateFromTime (LocalTime (timestamp r)) =? d).
Proof.
  unfold Server.sameDay, entryDate, newDate, TimeClip, clockOk.
  destruct (Z.abs (timestamp r) <=? maxTime); reflexivity.
Qed.


End DayQuery.

Lemma tempdata_not_found_witness :
  Server.getTempdata (H := istHost) 1704421000000 (Some "2099-01-01") None None
    (run (H := istHost) morning)
  = (Ok {| status := 404;
           payload := MessageBody "No data available for the specified day." |},
     (readWeatherData (H := istHost) ServerJs 1704421000000 (run (H := istHost) morning)).2).
Proof.
  apply (tempdata_not_found (H := istHost) 1704421000000 (Some "2099-01-01") None None
           (run (H := istHost) morning) morningReadings).
  - vm_compute. reflexivity.
  - vm_compute. reflexivity.
Defined.


Section Filters.
Context `{Host}.

Lemma filterData_nil filterBy filterValue : filterData [] filterBy filterValue = [].
Proof.
  unfold filterData.
  repeat match goal with |- context [if ?b then _ else _] => destruct b end; reflexivity.
Qed.

(** The aggregate says "no data" exactly when the filter keeps nothing. *)
Lemma findMinMaxTemperature_no_data data filterBy filterValue :
  filterData data filterBy filterValue = [] ->
  Part000.findMinMaxTemperature data filterBy filterValue
  = {| Part000.highest := None; Part000.lowest := None |}.
Proof. intros E. unfold Part000.findMinMaxTemperature. rewrite E. reflexivity. Qed.

(** C4. When the sequence to aggregate is empty, [findMinMaxTemperature]
    returns [null] for both fields: a value, and neither an infinity nor
    zero. The empty input is the first case of it. *)
Theorem empty_aggregate_is_no_data data filterBy filterValue :
  filterData data filterBy filterValue = [] ->
  let r := Part000.findMinMaxTemperature data filterBy filterValue in
  r = {| Part000.highest := None; Part000.lowest := None |}
  /\ Part000.highest r <> Some NegInfinity /\ Part000.lowest r <> Some Infinity
  /\ Part000.highest r <> Some (Num 0) /\ Part000.lowest r <> Some (Num 0)
  /\ Part000.findMinMaxTemperature [] filterBy filterValue
     = {| Part000.highest := None; Part000.lowest := None |}.
Proof.
  intros E. cbv zeta. rewrite (findMinMaxTemperature_no_data _ _ _ E).
  rewrite findMinMaxTemperature_no_data by apply filterData_nil.
  repeat split; discriminate.
Qed.

(** In [server.js] the aggregate is never taken of an empty selection: a
    reply with a highest and a lowest temperature carries two integers. *)
Lemma tempdata_never_infinite now date month year w hi lo day w' :
  Server.getTempdata now date month year w
  = (Ok {| status := 200; payload := MinMaxDayBody hi lo day |}, w') ->
  exists h l, hi = Num h /\ lo = Num l.
Proof.
  rewrite getTempdata_run.
  destruct (readWeatherData ServerJs now w) as [[rs|e] w0]; [|discriminate]. cbv zeta.
  destruct (selectedDay now date month year rs) as [|r sel] eqn:Es; [discriminate|].
  cbn [length Nat.eqb]. intros [= <- <- _ _].
  destruct (MathMax_greatest (map temperature (r :: sel))) as (h & Hh & _); [discriminate|].
  destruct (MathMin_least (map temperature (r :: sel))) as (l & Hl & _); [discriminate|].
  rewrite map_map in Hh, Hl. eauto.
Qed.

(** C10. [filterData] returns a sequence for every input: the empty one when
    the criterion is [day], [month] or [year] and the value is no date, or
    the criterion is [hour] or [timestamp] and the value is no number (an
    absent value is neither), and the input itself when the criterion is
    none of the five. *)
Theorem filterData_total data filterBy filterValue :
  (In filterBy dateCriteria -> newDate filterValue = NaN ->
   filterData data filterBy filterValue = [])
  /\ (In filterBy numberCriteria -> parseInt filterValue None = NaN ->
      filterData data filterBy filterValue = [])
  /\ (~ In filterBy (dateCriteria ++ numberCriteria) ->
      filterData data filterBy filterValue = data)
  /\ newDate undefined = NaN
  /\ parseInt undefined None = NaN.
Proof.
  split; [|split; [|split; [|split; reflexivity]]].
  - intros Hc Hv. unfold filterData. rewrite Hv.
    simpl in Hc. destruct Hc as [<-|[<-|[<-|[]]]]; simpl; apply filter_NaN.
  - intros Hc Hv. unfold filterData. rewrite Hv.
    simpl in Hc. destruct Hc as [<-|[<-|[]]]; simpl;
      apply filter_none; intros entry; first [apply strict_eq_NaN | reflexivity].
  - intros Hc. unfold filterData.
    repeat match goal with
           | |- context [String.eqb filterBy ?c] =>
               destruct (String.eqb_spec filterBy c) as [->|_];
               [exfalso; apply Hc; simpl; tauto|]
           end.
    reflexivity.
Qed.

End Filters.

Lemma empty_aggregate_is_no_data_witness :
  let r := Part000.findMinMaxTemperature (H := istHost) morningReadings "hour" (VStr "23") in
  r = {| Part000.highest := None; Part000.lowest := None |}
  /\ Part000.highest r <> Some NegInfinity /\ Part000.lowest r <> Some Infinity
  /\ Part000.highest r <> Some (Num 0) /\ Part000.lowest r <> Some (Num 0)
  /\ Part000.findMinMaxTemperature (H := istHost) [] "hour" (VStr "23")
     = {| Part000.highest := None; Part000.lowest := None |}.
Proof.
  apply (empty_aggregate_is_no_data (H := istHost) morningReadings "hour" (VStr "23")).
  reflexivity.
Defined.

(** The second file asks [findMinMaxTemperature] for the day with the day
    of the month it has computed already, a number, which [filterData] reads
    as a count of milliseconds: without parameters the value is NaN and the
    answer is 200 with two nulls, and a date selects the readings of the 1st
    of the month in a zone ahead of UTC. *)
Example part000_tempdata_without_parameters :
  (Part000.getTempdata (H := istHost) 1704421000000 None None (run (H := istHost) morning)).1
  = Ok {| status := 200; payload := MinMaxBody None None |}
  /\ (Part000.getTempdata (H := istHost) 1704421000000 None (Some "2024-01-05")
        (run (H := istHost) morning)).1
     = Ok {| status := 200; payload := MinMaxBody None None |}.
Proof. vm_compute. auto. Qed.

Lemma filterData_total_witness :
  filterData (H := istHost) morningReadings "day" (VStr "yesterday") = []
  /\ filterData (H := istHost) morningReadings "hour" undefined = []
  /\ filterData (H := istHost) morningReadings "week" (VStr "1") = morningReadings.
Proof.
  split; [|split].
  - apply (proj1 (filterData_total (H := istHost) morningReadings "day" (VStr "yesterday")));
      [simpl; tauto | reflexivity].
  - apply (proj1 (proj2 (filterData_total (H := istHost) morningReadings "hour" undefined)));
      [simpl; tauto | reflexivity].
  - apply (proj1 (proj2 (proj2
             (filterData_total (H := istHost) morningReadings "week" (VStr "1"))))).
    simpl. intros Hc. repeat destruct Hc as [Hc|Hc]; try discriminate. exact Hc.
Defined.
(** ** The filter on the three readings of the specification *)

Example jan5_0300_fields :
  (YearFromTime jan5_0300, MonthFromTime jan5_0300, DateFromTime jan5_0300,
   HourFromTime jan5_0300) = (2024, 0, 5, 3).
Proof. reflexivity. Qed.

Example jan5_1400_fields :
  (YearFromTime jan5_1400, MonthFromTime jan5_1400, DateFromTime jan5_1400,
   HourFromTime jan5_1400) = (2024, 0, 5, 14).
Proof. reflexivity. Qed.

Example feb5_0300_fields :
  (YearFromTime feb5_0300, MonthFromTime feb5_0300, DateFromTime feb5_0300,
   HourFromTime feb5_0300) = (2024, 1, 5, 3).
Proof. reflexivity. Qed.

Section ThreeReadings.
Context `{Host}.

Lemma entryDate_local r l :
  aheadOfUTC -> LocalTime (timestamp r) = l -> 0 <= l <= maxTime ->
  entryDate r = Num (timestamp r).
Proof.
  intros Hz Hl Hr. unfold entryDate, newDate, TimeClip, LocalTime in *.
  specialize (Hz (timestamp r)). unfold msPerHour, maxTime in *.
  destruct (Z.leb_spec (Z.abs (timestamp r)) 8640000000000000); [reflexivity|lia].
Qed.

Lemma parsed_day_local d :
  aheadOfUTC -> DateFromTime (LocalTime (d * msPerDay)) = DateFromTime (d * msPerDay).
Proof.
  intros Hz. apply DateFromTime_Day. unfold LocalTime.
  rewrite Day_midnight, Day_midnight_plus; [reflexivity|].
  specialize (Hz (d * msPerDay)). unfold msPerHour, msPerDay in *. lia.
Qed.

Lemma parsed_year_local d :
  aheadOfUTC -> YearFromTime (LocalTime (d * msPerDay)) = YearFromTime (d * msPerDay).
Proof.
  intros Hz. apply YearFromTime_Day. unfold LocalTime.
  rewrite Day_midnight, Day_midnight_plus; [reflexivity|].
  specialize (Hz (d * msPerDay)). unfold msPerHour, msPerDay in *. lia.
Qed.

(** C1, as the code has it. In a zone at or ahead of UTC, on three readings
    taken at 03:00 and 14:00 on 5 January 2024 and at 03:00 on 5 February
    2024, local time: the criterion [day] with 2024-01-05 keeps all three,
    for it compares the day of the month and each falls on a 5th; [hour]
    with 3 keeps the first and the third; [year] with 2024 keeps all three. *)
Theorem filter_three_readings r1 r2 r3 :
  aheadOfUTC ->
  LocalTime (timestamp r1) = jan5_0300 ->
  LocalTime (timestamp r2) = jan5_1400 ->
  LocalTime (timestamp r3) = feb5_0300 ->
  filterData [r1; r2; r3] "day" (VStr "2024-01-05") = [r1; r2; r3]
  /\ filterData [r1; r2; r3] "hour" (VStr "3") = [r1; r3]
  /\ filterData [r1; r2; r3] "year" (VStr "2024") = [r1; r2; r3].
Proof.
  intros Hz H1 H2 H3.
  assert (E1 := entryDate_local r1 _ Hz H1 ltac:(vm_compute; split; discriminate)).
  assert (E2 := entryDate_local r2 _ Hz H2 ltac:(vm_compute; split; discriminate)).
  assert (E3 := entryDate_local r3 _ Hz H3 ltac:(vm_compute; split; discriminate)).
  unfold filterData. cbn [String.eqb Ascii.eqb Bool.eqb]. cbv iota.
  split; [|split].
  - change (newDate (VStr "2024-01-05")) with (Num (19727 * msPerDay)).
    cbn [getDate List.filter]. rewrite E1, E2, E3. cbn [getDate].
    rewrite H1, H2, H3, (parsed_day_local _ Hz). reflexivity.
  - change (parseInt (VStr "3") None) with (Num 3).
    cbn [List.filter]. rewrite E1, E2, E3. cbn [getHours].
    rewrite H1, H2, H3. reflexivity.
  - change (newDate (VStr "2024")) with (Num (19723 * msPerDay)).
    cbn [getFullYear List.filter]. rewrite E1, E2, E3. cbn [getFullYear].
    rewrite H1, H2, H3, (parsed_year_local _ Hz). reflexivity.
Qed.

End ThreeReadings.

(** C1, as the specification has it, fails: under UTC the three readings
    are stamped with their local times, and the criterion [day] with
    2024-01-05 returns the February reading along with the first two. *)
Lemma day_filter_keeps_february :
  filterData (H := utcHost) [reading1; reading2; reading3] "day" (VStr "2024-01-05")
  <> [reading1; reading2].
Proof. vm_compute. discriminate. Qed.

Lemma filter_three_readings_witness :
  let r1 := {| temperature := 18; humidity := 50; timestamp := jan5_0300 - 19800000 |} in
  let r2 := {| temperature := 24; humidity := 45; timestamp := jan5_1400 - 19800000 |} in
  let r3 := {| temperature := 16; humidity := 55; timestamp := feb5_0300 - 19800000 |} in
  filterData (H := istHost) [r1; r2; r3] "day" (VStr "2024-01-05") = [r1; r2; r3]
  /\ filterData (H := istHost) [r1; r2; r3] "hour" (VStr "3") = [r1; r3]
  /\ filterData (H := istHost) [r1; r2; r3] "year" (VStr "2024") = [r1; r2; r3].
Proof.
  intros r1 r2 r3. apply (filter_three_readings (H := istHost) r1 r2 r3).
  - intros t. simpl. unfold msPerHour. lia.
  - reflexivity.
  - reflexivity.
  - reflexivity.
Defined.

(** West of UTC a date-only value is midnight UTC, which is the evening
    before in local time: under an offset of five hours the same three
    readings pass neither the [day] nor the [year] filter. *)
Example date_only_value_west_of_utc :
  let r1 := {| temperature := 18; humidity := 50; timestamp := jan5_0300 + 18000000 |} in
  let r2 := {| temperature := 24; humidity := 45; timestamp := jan5_1400 + 18000000 |} in
  let r3 := {| temperature := 16; humidity := 55; timestamp := feb5_0300 + 18000000 |} in
  filterData (H := westHost) [r1; r2; r3] "day" (VStr "2024-01-05") = []
  /\ filterData (H := westHost) [r1; r2; r3] "hour" (VStr "3") = [r1; r3]
  /\ filterData (H := westHost) [r1; r2; r3] "year" (VStr "2024") = [].
Proof. vm_compute. auto. Qed.

(** * Further properties *)

(** ** Calendar fields stay in range *)

Section CalendarRanges.

Lemma DayWithinYear_range t :
  0 <= DayWithinYear t < 365 + InLeapYear t.
Proof.
  unfold DayWithinYear, InLeapYear.
  pose proof (YearFromTime_spec t) as Hy.
  pose proof (DaysInYear_spec (YearFromTime t)) as Hd.
  assert (Hc : DaysInYear (YearFromTime t) = 365 \/ DaysInYear (YearFromTime t) = 366).
  { unfold DaysInYear.
    repeat match goal with |- context [if ?b then _ else _] => destruct b end; auto. }
  destruct Hc as [Hc|Hc]; rewrite Hc in *; simpl; lia.
Qed.

Lemma InLeapYear_range t : InLeapYear t = 0 \/ InLeapYear t = 1.
Proof. unfold InLeapYear. destruct (_ =? _); auto. Qed.

Lemma MonthFromTime_range t : 0 <= MonthFromTime t <= 11.
Proof.
  unfold MonthFromTime.
  repeat match goal with |- context [if ?b then _ else _] => destruct b end; lia.
Qed.

Lemma DateFromTime_range t : 1 <= DateFromTime t <= 31.
Proof.
  pose proof (DayWithinYear_range t) as Hd.
  destruct (InLeapYear_range t) as [Hl|Hl];
    unfold DateFromTime, MonthFromTime; rewrite Hl in *;
    repeat match goal with
           | |- context [if ?a <? ?b then _ else _] => destruct (Z.ltb_spec a b)
           end; simpl monthStart; lia.
Qed.

End CalendarRanges.

(** ** [parseInt] reads back the decimal text of an integer *)

Section ParseIntFacts.

Lemma horner_acc d p : horner (Z.pos p) d = Z.pos (Pos.of_uint_acc d p).
Proof.
  revert p. induction d; intros p; simpl; try reflexivity;
    rewrite <- IHd; f_equal; lia.
Qed.

Lemma horner_of_uint d : horner 0 d = Z.of_uint d.
Proof.
  unfold Z.of_uint.
  induction d; simpl; first [reflexivity | exact IHd | exact (horner_acc d _)].
Qed.

Lemma readDigits_chars d acc :
  readDigits 10 (Some acc) (chars d) = Some (horner acc d).
Proof.
  revert acc. induction d; intros acc; unfold chars in *; simpl; try apply IHd.
  reflexivity.
Qed.

Lemma readDigits_chars_first d :
  d <> Nil -> readDigits 10 None (chars d) = Some (horner 0 d).
Proof.
  destruct d; [congruence|..]; intros _; unfold chars; simpl;
    apply (readDigits_chars d).
Qed.

Lemma stripHexPrefix_chars d : stripHexPrefix (chars d) = None.
Proof.
  destruct d as [|d| | | | | | | | |]; try reflexivity.
  destruct d; reflexivity.
Qed.

Lemma parseIntString_digits d radix :
  d <> Nil -> radix = None \/ radix = Some 10 ->
  parseIntString (NilEmpty.string_of_uint d) radix = Num (horner 0 d)
  /\ parseIntString (String "-" (NilEmpty.string_of_uint d)) radix = Num (- horner 0 d).
Proof.
  intros Hd Hr.
  assert (Hbody : forall sign,
    (let r0 := match radix with Some r => r | None => 0 end in
     if negb (r0 =? 0) && ((r0 <? 2) || (36 <? r0)) then NaN
     else
       let '(r, s3) :=
         if (r0 =? 0) || (r0 =? 16) then
           match stripHexPrefix (chars d) with
           | Some rest => (16, rest)
           | None => (if r0 =? 0 then 10 else r0, chars d)
           end
         else (r0, chars d) in
       match readDigits r None s3 with
       | Some n => Num (sign * n)
       | None => NaN
       end) = Num (sign * horner 0 d)).
  { intros sign. destruct Hr as [-> | ->]; cbv zeta; simpl;
      rewrite ?stripHexPrefix_chars, (readDigits_chars_first d Hd); reflexivity. }
  split.
  - unfold parseIntString. fold (chars d).
    replace (trimStart (chars d)) with (chars d)
      by (destruct d; [congruence|reflexivity..]).
    destruct d; [congruence|..];
      (etransitivity; [exact (Hbody 1)|f_equal; lia]).
  - unfold parseIntString. cbn [list_ascii_of_string]. fold (chars d).
    change (trimStart ("-"%char :: chars d)) with ("-"%char :: chars d).
    cbv iota beta. etransitivity; [exact (Hbody (-1))|f_equal; lia].
Qed.

Lemma parseIntString_show z radix :
  radix = None \/ radix = Some 10 -> parseIntString (show_Z z) radix = Num z.
Proof.
  intros Hr. destruct z as [|p|p].
  - destruct Hr as [-> | ->]; reflexivity.
  - rewrite JsonFacts.show_pos.
    destruct (parseIntString_digits (Pos.to_uint p) radix
                (DecimalPos.Unsigned.to_uint_nonnil p) Hr) as [-> _].
    rewrite horner_of_uint, JsonFacts.of_to_uint. reflexivity.
  - rewrite JsonFacts.show_neg.
    destruct (parseIntString_digits (Pos.to_uint p) radix
                (DecimalPos.Unsigned.to_uint_nonnil p) Hr) as [_ ->].
    rewrite horner_of_uint, JsonFacts.of_to_uint. reflexivity.
Qed.

End ParseIntFacts.

(** ** [filterData] as a filter *)

Section FilterFacts.
Context `{Host}.

Lemma filter_true {A} (l : list A) : List.filter (fun _ => true) l = l.
Proof. induction l as [|x l IH]; simpl; [reflexivity|now rewrite IH]. Qed.

Lemma filterData_keeps data filterBy filterValue :
  filterData data filterBy filterValue = List.filter (keeps filterBy filterValue) data.
Proof.
  unfold filterData, keeps.
  repeat match goal with |- context [String.eqb filterBy ?c] =>
    destruct (String.eqb filterBy c) end; try reflexivity.
  symmetry. apply filter_true.
Qed.

Lemma filter_sublist {A} (f : A -> bool) l : sublist (List.filter f l) l.
Proof.
  induction l as [|x l IH]; simpl; [constructor|].
  destruct (f x); [apply sublist_skip|apply sublist_cons]; exact IH.
Qed.

Lemma filter_filter_comm {A} (f g : A -> bool) l :
  List.filter f (List.filter g l) = List.filter g (List.filter f l).
Proof.
  induction l as [|x l IH]; simpl; [reflexivity|].
  destruct (g x) eqn:Eg, (f x) eqn:Ef; simpl; rewrite ?Eg, ?Ef, IH; reflexivity.
Qed.

Lemma filter_filter_same {A} (f : A -> bool) l :
  List.filter f (List.filter f l) = List.filter f l.
Proof.
  induction l as [|x l IH]; simpl; [reflexivity|].
  destruct (f x) eqn:Ef; simpl; rewrite ?Ef, IH; reflexivity.
Qed.

(** X1. What [filterData] returns is a subsequence of what it is given: the
    kept readings are readings of the input, once each and in the order of
    the input. *)
Theorem filterData_subsequence data filterBy filterValue :
  sublist (filterData data filterBy filterValue) data
  /\ (length (filterData data filterBy filterValue) <= length data)%nat
  /\ forall r, In r (filterData data filterBy filterValue) -> In r data.
Proof.
  rewrite filterData_keeps. split; [apply filter_sublist|]. split.
  - apply sublist_length, filter_sublist.
  - intros r Hr. apply filter_In in Hr. tauto.
Qed.

(** X2. [filterData] judges each reading on its own: it distributes over
    concatenation (so filtering before or after an append agrees on the old
    readings), filtering twice by the same criterion is filtering once, and
    two filters give the same result in either order. *)
Theorem filterData_composes a b by1 v1 by2 v2 :
  filterData (a ++ b) by1 v1 = filterData a by1 v1 ++ filterData b by1 v1
  /\ filterData (filterData a by1 v1) by1 v1 = filterData a by1 v1
  /\ filterData (filterData a by1 v1) by2 v2 = filterData (filterData a by2 v2) by1 v1.
Proof.
  rewrite !filterData_keeps. split; [apply List.filter_app|].
  split; [apply filter_filter_same|apply filter_filter_comm].
Qed.

(** X3. The criterion [timestamp] with the decimal text of an instant keeps
    exactly the readings stamped with that instant, when the instant asked
    for and the stored stamps are integers a double holds ([parseInt] and
    [===] work on doubles); asked for the stamp of a stored reading it finds
    that reading. *)
Theorem filter_by_timestamp data t :
  exactInteger t = true ->
  Forall (fun r => exactInteger (timestamp r) = true) data ->
  filterData data "timestamp" (VStr (show_Z t))
  = List.filter (fun r => timestamp r =? t) data
  /\ forall r, In r data -> timestamp r = t ->
       In r (filterData data "timestamp" (VStr (show_Z t))).
Proof.
  intros _ _.
  assert (E : filterData data "timestamp" (VStr (show_Z t))
              = List.filter (fun r => timestamp r =? t) data).
  { unfold filterData. cbn [String.eqb Ascii.eqb Bool.eqb]. cbv iota.
    unfold parseInt. rewrite parseIntString_show by auto. reflexivity. }
  split; [exact E|]. intros r Hr Ht. rewrite E. apply filter_In.
  split; [exact Hr|]. apply Z.eqb_eq, Ht.
Qed.

(** X4. The criterion [hour] with the decimal text of [h] keeps the readings
    taken in hour [h] of the local day, when the stored timestamps are valid
    time values; an [h] outside 0..23 keeps nothing. *)
Theorem filter_by_hour data h :
  Forall (fun r => clockOk (timestamp r) = true) data ->
  filterData data "hour" (VStr (show_Z h))
  = List.filter (fun r => hourOfDay r =? h) data
  /\ (~ 0 <= h < 24 -> filterData data "hour" (VStr (show_Z h)) = []).
Proof.
  intros Hv.
  assert (E : filterData data "hour" (VStr (show_Z h))
              = List.filter (fun r => hourOfDay r =? h) data).
  { unfold filterData. cbn [String.eqb Ascii.eqb Bool.eqb]. cbv iota.
    unfold parseInt. rewrite parseIntString_show by auto.
    induction Hv as [|r rs Hr Hrs IH]; simpl; [reflexivity|].
    rewrite IH. unfold clockOk in Hr. unfold entryDate, newDate, TimeClip.
    rewrite Hr. reflexivity. }
  split; [exact E|]. intros Hh. rewrite E. apply filter_none. intros r.
  apply Z.eqb_neq. pose proof (HourFromTime_range (LocalTime (timestamp r))).
  unfold hourOfDay. lia.
Qed.

End FilterFacts.

Lemma filter_by_timestamp_witness :
  filterData (H := istHost) morningReadings "timestamp" (VStr (show_Z 1704416400000))
  = List.filter (fun r => timestamp r =? 1704416400000) morningReadings
  /\ forall r, In r morningReadings -> timestamp r = 1704416400000 ->
       In r (filterData (H := istHost) morningReadings "timestamp"
               (VStr (show_Z 1704416400000))).
Proof.
  apply (filter_by_timestamp (H := istHost) morningReadings 1704416400000).
  - reflexivity.
  - repeat constructor.
Defined.

Lemma filter_by_hour_witness :
  filterData (H := istHost) morningReadings "hour" (VStr (show_Z 6))
  = List.filter (fun r => hourOfDay (H := istHost) r =? 6) morningReadings
  /\ (~ 0 <= 6 < 24 -> filterData (H := istHost) morningReadings "hour" (VStr (show_Z 6)) = []).
Proof.
  apply (filter_by_hour (H := istHost) morningReadings 6).
  repeat constructor.
Defined.

(** ** Where a partition lives *)

Section PathFacts.
Context `{Host}.

Lemma append_inj_l a x y : a +:+ x = a +:+ y -> x = y.
Proof.
  induction a as [|c a IH]; [auto|].
  change (String c (a +:+ x) = String c (a +:+ y) -> x = y). intros [= E]. auto.
Qed.

Lemma monthName_inj m m' :
  0 <= m <= 11 -> 0 <= m' <= 11 ->
  monthName m +:+ ".json" = monthName m' +:+ ".json" -> m = m'.
Proof.
  intros Hm Hm' E.
  assert (Hc : m = 0 \/ m = 1 \/ m = 2 \/ m = 3 \/ m = 4 \/ m = 5 \/ m = 6 \/ m = 7
               \/ m = 8 \/ m = 9 \/ m = 10 \/ m = 11) by lia.
  assert (Hc' : m' = 0 \/ m' = 1 \/ m' = 2 \/ m' = 3 \/ m' = 4 \/ m' = 5 \/ m' = 6
                \/ m' = 7 \/ m' = 8 \/ m' = 9 \/ m' = 10 \/ m' = 11) by lia.
  repeat (destruct Hc as [->|Hc]); try subst m;
    repeat (destruct Hc' as [->|Hc']); try subst m';
    first [reflexivity | discriminate E].
Qed.

Lemma append_assoc a b c : (a +:+ b) +:+ c = a +:+ b +:+ c.
Proof.
  induction a as [|x a IH]; [reflexivity|].
  change (String x ((a +:+ b) +:+ c) = String x (a +:+ b +:+ c)). now rewrite IH.
Qed.

Lemma partitionPath_inj now now' :
  partitionPath now = partitionPath now' ->
  getCurrentYear now = getCurrentYear now'
  /\ MonthFromTime (LocalTime now) = MonthFromTime (LocalTime now').
Proof.
  unfold partitionPath, yearDir, getCurrentMonth. intros E.
  rewrite !append_assoc in E. apply append_inj_l in E.
  apply (append_inj_l "/data_") in E.
  apply (f_equal Json.parse_int) in E.
  rewrite !JsonFacts.parse_int_print in E by (split; reflexivity).
  injection E as Ey Em. split; [exact Ey|].
  apply (append_inj_l "") in Em.
  apply monthName_inj in Em; auto using MonthFromTime_range.
Qed.

Lemma partitionPath_same now now' :
  getCurrentYear now = getCurrentYear now' ->
  MonthFromTime (LocalTime now) = MonthFromTime (LocalTime now') ->
  partitionPath now = partitionPath now'.
Proof.
  unfold partitionPath, yearDir, getCurrentMonth. intros -> ->. reflexivity.
Qed.

(** X5. Two instants share a partition file exactly when they fall in the
    same year and the same month of local time: no two months write to one
    file, and one month never writes to two. *)
Theorem partition_per_month now now' :
  partitionPath now = partitionPath now'
  <-> getCurrentYear now = getCurrentYear now'
      /\ MonthFromTime (LocalTime now) = MonthFromTime (LocalTime now').
Proof.
  split; [apply partitionPath_inj|]. intros [Ey Em]. apply partitionPath_same; assumption.
Qed.

(** X6. A [getDataFilePath] that returns gives the path of the month's
    file. With nothing but a directory where the directory of the year
    belongs, that directory is there afterwards; with a file in its place
    [existsSync] is true and no directory is made. No directory goes away,
    no file changes, nothing is printed, and asked again it changes nothing
    at all. *)
Theorem getDataFilePath_settles now w path w1 :
  getDataFilePath now w = (Ok path, w1) ->
  path = partitionPath now
  /\ (ordinary w now -> yearDir now ∈ dirs w1)
  /\ (is_Some (files w !! yearDir now) -> dirs w1 = dirs w)
  /\ dirs w ⊆ dirs w1
  /\ files w1 = files w
  /\ console w1 = console w
  /\ getDataFilePath now w1 = (Ok path, w1).
Proof.
  rewrite getDataFilePath_run. intros [= <- <-].
  split; [reflexivity|]. split; [apply dirs_withDir|].
  split; [intros Hf; rewrite dirs_withDir_file by exact Hf; reflexivity|].
  split; [apply dirs_withDir_more|].
  split; [apply files_withDir|]. split; [apply console_withDir|].
  rewrite getDataFilePath_run, (withDir_again _ w); [reflexivity|reflexivity|].
  intros q Hq. rewrite files_withDir. exact Hq.
Qed.

End PathFacts.

Lemma getDataFilePath_settles_witness :
  let now := 1704412800000 in
  let w1 := (getDataFilePath (H := istHost) now emptyWorld).2 in
  partitionPath (H := istHost) now = partitionPath (H := istHost) now
  /\ (ordinary (H := istHost) emptyWorld now -> yearDir (H := istHost) now ∈ dirs w1)
  /\ (is_Some (files emptyWorld !! yearDir (H := istHost) now) -> dirs w1 = dirs emptyWorld)
  /\ dirs emptyWorld ⊆ dirs w1
  /\ files w1 = files emptyWorld
  /\ console w1 = console emptyWorld
  /\ getDataFilePath (H := istHost) now w1 = (Ok (partitionPath (H := istHost) now), w1).
Proof.
  apply (getDataFilePath_settles (H := istHost) 1704412800000 emptyWorld).
  vm_compute. reflexivity.
Defined.

(** ** Loading and saving, again *)

Section StoreMore.
Context `{Host}.

(** X7. Loading is repeatable: a second [readWeatherData] for the same
    partition returns what the first returned and changes no file (the file
    the first call may have created is found by the second). *)
Theorem load_twice ep now now' w :
  partitionPath now' = partitionPath now ->
  let first := readWeatherData ep now w in
  let second := readWeatherData ep now' first.2 in
  second.1 = first.1 /\ files second.2 = files first.2.
Proof.
  intros Hp. cbv zeta. rewrite (readWeatherData_run ep now w). cbv zeta.
  destruct (files w !! partitionPath now) as [[|s]|] eqn:E.
  - cbn [fst snd]. rewrite readWeatherData_run, Hp. cbv zeta. look E.
    cbn [fst snd]. files_simpl. auto.
  - destruct (Json.parse s) as [rs|] eqn:Ep; cbn [fst snd];
      rewrite readWeatherData_run, Hp; cbv zeta; look E; rewrite Ep;
      cbn [fst snd]; files_simpl; auto.
  - cbn [fst snd]. rewrite readWeatherData_run, Hp. cbv zeta.
    match goal with
    | |- context [files ?w0 !! ?p] =>
        replace (files w0 !! p) with (Some (Text "[]"))
          by (symmetry; apply lookup_insert_eq)
    end.
    change (Json.parse "[]") with (Some (@nil Reading)). cbn [fst snd].
    files_simpl. auto.
Qed.

(** X8. A [writeWeatherData] that returns has replaced one file and nothing
    else: the partition file holds the text of what was saved and reads
    back as that, every other path holds what it held, the partitions of
    other months read as before and the console is untouched; of two saves
    to one partition the later one is what stays. *)
Theorem save_touches_one_file now data w w1 :
  writeWeatherData now data w = (Ok tt, w1) ->
  files w1 !! partitionPath now = Some (Text (Json.stringify data))
  /\ partition w1 now = data
  /\ (forall q, q <> partitionPath now -> files w1 !! q = files w !! q)
  /\ (forall now', partitionPath now' <> partitionPath now ->
        partition w1 now' = partition w now')
  /\ console w1 = console w
  /\ forall data' w2,
       writeWeatherData now data' w1 = (Ok tt, w2) ->
       files w2 = <[partitionPath now := Text (Json.stringify data')]> (files w)
       /\ partition w2 now = data'.
Proof.
  intros Hw. rewrite writeWeatherData_run in Hw.
  assert (Hf : files w1 = <[partitionPath now := Text (Json.stringify data)]> (files w)
               /\ console w1 = console w).
  { destruct (files w !! partitionPath now) as [[|s]|]; [discriminate| |];
      injection Hw as <-; simpl; rewrite files_withDir, console_withDir; auto. }
  destruct Hf as [Hf Hc].
  assert (Hread : forall (m : gmap string node) saved,
            contents (<[partitionPath now := Text (Json.stringify saved)]> m
                      !! partitionPath now) = saved).
  { intros m saved. rewrite lookup_insert_eq. cbn [contents].
    rewrite JsonFacts.parse_stringify. reflexivity. }
  split; [rewrite Hf; apply lookup_insert_eq|].
  split; [unfold partition; rewrite Hf; apply Hread|].
  split; [intros q Hq; rewrite Hf; apply lookup_insert_ne; congruence|].
  split; [intros now' Hn; unfold partition; rewrite Hf, lookup_insert_ne by congruence;
          reflexivity|].
  split; [exact Hc|].
  intros data' w2 Hw2. rewrite writeWeatherData_run, Hf, lookup_insert_eq in Hw2.
  injection Hw2 as <-.
  assert (Hf2 : files (stored (partitionPath now) (Json.stringify data')
                         (withDir (yearDir now) w1))
                = <[partitionPath now := Text (Json.stringify data')]> (files w)).
  { simpl. rewrite files_withDir, Hf. apply insert_insert_eq. }
  split; [exact Hf2|]. unfold partition. rewrite Hf2. apply Hread.
Qed.

(** X9. Reads fail open, writes fail closed: on a partition node that cannot
    be opened [writeWeatherData] throws and changes no file, where
    [readWeatherData] returns the empty sequence. *)
Theorem save_fails_closed ep now data w :
  files w !! partitionPath now = Some Unreadable ->
  (writeWeatherData now data w).1 = Throw EACCES
  /\ files (writeWeatherData now data w).2 = files w
  /\ (readWeatherData ep now w).1 = Ok [].
Proof.
  intros E. rewrite writeWeatherData_run, readWeatherData_run, E. cbv zeta.
  files_simpl. auto.
Qed.

End StoreMore.

Lemma save_touches_one_file_witness :
  let now := 1704412800000 in
  let w1 := (writeWeatherData (H := istHost) now twoReadings emptyWorld).2 in
  files w1 !! partitionPath (H := istHost) now = Some (Text (Json.stringify twoReadings))
  /\ partition (H := istHost) w1 now = twoReadings
  /\ (forall q, q <> partitionPath (H := istHost) now -> files w1 !! q = files emptyWorld !! q)
  /\ (forall now', partitionPath (H := istHost) now' <> partitionPath (H := istHost) now ->
        partition (H := istHost) w1 now' = partition (H := istHost) emptyWorld now')
  /\ console w1 = console emptyWorld
  /\ forall data' w2,
       writeWeatherData (H := istHost) now data' w1 = (Ok tt, w2) ->
       files w2 = <[partitionPath (H := istHost) now := Text (Json.stringify data')]>
                    (files emptyWorld)
       /\ partition (H := istHost) w2 now = data'.
Proof.
  apply (save_touches_one_file (H := istHost) 1704412800000 twoReadings emptyWorld).
  vm_compute. reflexivity.
Defined.

Lemma load_twice_witness :
  let first := readWeatherData (H := istHost) ServerJs 1704412800000 emptyWorld in
  let second := readWeatherData (H := istHost) ServerJs 1704416400000 first.2 in
  second.1 = first.1 /\ files second.2 = files first.2.
Proof.
  apply (load_twice (H := istHost) ServerJs 1704412800000 1704416400000 emptyWorld).
  vm_compute. reflexivity.
Defined.

Lemma save_fails_closed_witness :
  (writeWeatherData (H := utcHost) 1704412800000 twoReadings lockedWorld).1 = Throw EACCES
  /\ files (writeWeatherData (H := utcHost) 1704412800000 twoReadings lockedWorld).2
     = files lockedWorld
  /\ (readWeatherData (H := utcHost) ServerJs 1704412800000 lockedWorld).1 = Ok [].
Proof.
  apply (save_fails_closed (H := utcHost) ServerJs 1704412800000 twoReadings lockedWorld).
  vm_compute. reflexivity.
Defined.

(** ** Ingestion, again *)

Section IngestMore.
Context `{Host}.

(** What [readWeatherData] returns is the sequence the partition denotes. *)
Lemma read_partition ep now w : (readWeatherData ep now w).1 = Ok (partition w now).
Proof.
  rewrite readWeatherData_run. cbv zeta. unfold partition.
  destruct (files w !! partitionPath now) as [[|s]|]; try reflexivity.
  cbn [contents]. destruct (Json.parse s); reflexivity.
Qed.

Lemma getWeather_run ep now filterBy filterValue w :
  getWeather ep now filterBy filterValue w =
  match readWeatherData ep now w with
  | (Ok weatherData, w0) =>
      (Ok {| status := 200;
             payload := ReadingsBody
                          (ifTruthy filterBy
                             (fun filterBy => filterData weatherData filterBy
                                                (of_query filterValue))
                             weatherData) |}, w0)
  | (Throw e, w0) =>
      (Ok {| status := 500; payload := ErrorBody "Internal Server Error" |},
       logged (LogError "Error retrieving data:" e) w0)
  end.
Proof.
  unfold getWeather, try_catch, mbind, M_bind.
  destruct (readWeatherData ep now w) as [[rs|e] w0]; reflexivity.
Qed.

(** X10. [fetchDataFromApi] never throws, and what goes wrong ends in a
    [console.error] line. When the sensor request fails that line is all
    that happens: no directory and no file is made or changed. When the
    sensor answers and the partition node cannot be opened, the load logs
    its failure and returns the empty sequence, the save of the new sample
    throws in its turn, and its error is logged: two error lines and no
    file changed. *)
Theorem ingest_never_throws ep now response w :
  (fetchDataFromApi ep now response w).1 = Ok tt
  /\ fetchDataFromApi ep now None w
     = (Ok tt, logged (LogError "Error fetching data from API:" RequestFailed) w)
  /\ (files w !! partitionPath now = Some Unreadable ->
      forall t h,
        let w1 := (fetchDataFromApi ep now (Some (t, h)) w).2 in
        console w1 = console w ++ [LogError (readErrorMessage ep now) EACCES;
                                   LogError "Error fetching data from API:" EACCES]
        /\ files w1 = files w).
Proof.
  split; [|split; [reflexivity|]].
  - destruct response as [[t h]|]; [|reflexivity].
    rewrite fetch_run.
    destruct (readWeatherData ep now w) as [[rs|e] w0]; [|reflexivity].
    destruct (existsb (inHour now) rs); [reflexivity|].
    destruct (writeWeatherData now (rs ++ [sample now t h]) w0) as [[[]|e] w1]; reflexivity.
  - intros E t h. cbv zeta. rewrite fetch_run, readWeatherData_run, E. cbv zeta.
    cbn [existsb]. rewrite writeWeatherData_run. look E.
    cbn [snd logged console files]. rewrite files_withDir, console_withDir.
    cbn [logged console files]. rewrite files_withDir, console_withDir, <- app_assoc. auto.
Qed.


(** X12. A partition whose text is no JSON is lost at the next answered
    ingestion: [JSON.parse] throws, the load logs that and returns the empty
    sequence, so the file is overwritten with the new sample alone and the
    save is logged. *)
Theorem ingest_replaces_unparseable_partition ep now t h w s :
  files w !! partitionPath now = Some (Text s) ->
  Json.notJson s ->
  let w1 := (fetchDataFromApi ep now (Some (t, h)) w).2 in
  files w1 = <[partitionPath now := Text (Json.stringify [sample now t h])]> (files w)
  /\ partition w1 now = [sample now t h]
  /\ console w1 = console w ++ [LogError (readErrorMessage ep now) SyntaxError;
                                Log "Data fetched and saved successfully."].
Proof.
  intros E Hn. cbv zeta. pose proof (JsonFacts.notJson_parse _ Hn) as Ep.
  assert (Hf : files (fetchDataFromApi ep now (Some (t, h)) w).2
               = <[partitionPath now := Text (Json.stringify [sample now t h])]> (files w)).
  { rewrite fetch_files, E. cbv zeta. cbn [contents]. rewrite Ep. reflexivity. }
  split; [exact Hf|]. split.
  - unfold partition. rewrite Hf, lookup_insert_eq. cbn [contents].
    rewrite JsonFacts.parse_stringify. reflexivity.
  - rewrite fetch_run, readWeatherData_run, E, Ep. cbv zeta. cbn [existsb].
    rewrite writeWeatherData_run. look E.
    cbn [snd logged stored console]. rewrite console_withDir. cbn [logged console].
    rewrite console_withDir, <- app_assoc. reflexivity.
Qed.

End IngestMore.

Lemma ingest_never_throws_witness :
  let now := 1704412800000 in
  let w1 := (fetchDataFromApi (H := utcHost) ServerJs now (Some (21, 40)) lockedWorld).2 in
  console w1 = console lockedWorld
               ++ [LogError (readErrorMessage (H := utcHost) ServerJs now) EACCES;
                   LogError "Error fetching data from API:" EACCES]
  /\ files w1 = files lockedWorld.
Proof.
  apply (proj2 (proj2 (ingest_never_throws (H := utcHost) ServerJs 1704412800000 None
                         lockedWorld))).
  vm_compute. reflexivity.
Defined.


Lemma ingest_replaces_unparseable_partition_witness :
  let now := 1704412800000 in
  let w1 := (fetchDataFromApi (H := utcHost) ServerJs now (Some (21, 40)) corruptWorld).2 in
  files w1 = <[partitionPath (H := utcHost) now := Text (Json.stringify [sample now 21 40])]>
               (files corruptWorld)
  /\ partition (H := utcHost) w1 now = [sample now 21 40]
  /\ console w1 = console corruptWorld
                  ++ [LogError (readErrorMessage (H := utcHost) ServerJs now) SyntaxError;
                      Log "Data fetched and saved successfully."].
Proof.
  apply (ingest_replaces_unparseable_partition (H := utcHost) ServerJs 1704412800000 21 40
           corruptWorld "[{").
  - vm_compute. reflexivity.
  - exact JsonFacts.broken_text_notJson.
Defined.

(** ** What a run of the server keeps *)

Section RunMore.
Context `{Host}.

Lemma ingested_more events e r : ingested events r -> ingested (events ++ [e]) r.
Proof. intros [ep Hin]. exists ep. apply in_or_app. auto. Qed.

Lemma placed_more events e m : placed events m -> placed (events ++ [e]) m.
Proof.
  intros Hm p n Hp. destruct (Hm p n Hp) as (rs & -> & Hrs). exists rs.
  split; [reflexivity|]. eapply Forall_impl; [exact Hrs|].
  intros r [? ?]. eauto using ingested_more.
Qed.

Lemma placed_insert events m p rs :
  placed events m ->
  Forall (fun r => partitionPath (timestamp r) = p /\ ingested events r) rs ->
  placed events (<[p := Text (Json.stringify rs)]> m).
Proof.
  intros Hm Hrs q n. rewrite lookup_insert. case_decide.
  - intros [= <-]. subst q. eauto.
  - apply Hm.
Qed.

Lemma placed_read events ep now w :
  placed events (files w) -> placed events (files (readWeatherData ep now w).2).
Proof.
  intros Hw. rewrite read_files.
  destruct (files w !! partitionPath now); [exact Hw|].
  apply placed_insert; [exact Hw|constructor].
Qed.

Lemma placed_exec events w e :
  placed events (files w) -> placed (events ++ [e]) (files (exec w e)).
Proof.
  intros Hw. destruct e as [ep now response| | |]; simpl.
  - rewrite fetch_files. destruct response as [[t h]|]; [|apply placed_more, Hw].
    assert (Hnew : ingested (events ++ [Ingest ep now (Some (t, h))]) (sample now t h)).
    { exists ep. apply in_or_app. right. left. reflexivity. }
    destruct (files w !! partitionPath now) as [[|s]|] eqn:E;
      [apply placed_more, Hw| |]; cbv zeta.
    + destruct (Hw _ _ E) as (rs & [= ->] & Hrs). cbn [contents].
      rewrite JsonFacts.parse_stringify.
      destruct (existsb (inHour now) rs); [apply placed_more, Hw|].
      apply placed_insert; [apply placed_more, Hw|]. apply Forall_app. split.
      * eapply Forall_impl; [exact Hrs|]. intros r [? ?]. eauto using ingested_more.
      * constructor; [|constructor]. split; [reflexivity|exact Hnew].
    + cbn [contents existsb app]. apply placed_insert; [apply placed_more, Hw|].
      constructor; [|constructor]. split; [reflexivity|exact Hnew].
  - rewrite getWeather_files. apply placed_more, placed_read, Hw.
  - rewrite getTempdata_files. apply placed_more, placed_read, Hw.
  - rewrite getTempdataPart000_files. apply placed_more, placed_read, Hw.
Qed.

Lemma placed_run_from events past w :
  placed past (files w) -> placed (past ++ events) (files (fold_left exec events w)).
Proof.
  revert past w. induction events as [|e events IH]; intros past w Hw.
  - rewrite app_nil_r. exact Hw.
  - simpl. replace (past ++ e :: events) with ((past ++ [e]) ++ events)
      by (rewrite <- app_assoc; reflexivity).
    apply IH, placed_exec, Hw.
Qed.

Lemma placed_run events : placed events (files (run events)).
Proof.
  apply (placed_run_from events [] emptyWorld).
  intros p n. simpl. rewrite lookup_empty. discriminate.
Qed.

(** X13. Whatever run the server has had from an empty disk, every stored
    reading sits in the partition of its own timestamp and is the sample of
    an answered ingestion of that run, taken at that instant with those two
    values: the server stores nothing it did not fetch and files nothing
    under the wrong month. *)
Theorem readings_are_ingested_and_placed events now r :
  In r (partition (run events) now) ->
  partitionPath (timestamp r) = partitionPath now
  /\ exists ep, In (Ingest ep (timestamp r) (Some (temperature r, humidity r))) events.
Proof.
  unfold partition. intros Hr.
  destruct (files (run events) !! partitionPath now) as [n|] eqn:E; [|destruct Hr].
  destruct (placed_run events _ _ E) as (rs & -> & Hrs).
  cbn [contents] in Hr. rewrite JsonFacts.parse_stringify in Hr.
  rewrite Forall_forall in Hrs. apply Hrs, list_elem_of_In, Hr.
Qed.

(** The partition of [now] read from a file of a run. *)
Lemma placed_partition events w now :
  placed events (files w) ->
  files w !! partitionPath now = None
  \/ files w !! partitionPath now = Some (Text (Json.stringify (partition w now))).
Proof.
  intros Hw. unfold partition.
  destruct (files w !! partitionPath now) as [n|] eqn:E; [right|left; reflexivity].
  destruct (Hw _ _ E) as (rs & -> & _). cbn [contents].
  rewrite JsonFacts.parse_stringify. reflexivity.
Qed.

Lemma partition_grows_exec events w e now :
  placed events (files w) -> partition w now `prefix_of` partition (exec w e) now.
Proof.
  intros Hw.
  assert (Hread : forall ep now', partition w now
                    `prefix_of` partition (readWeatherData ep now' w).2 now).
  { intros ep now'. unfold partition. rewrite read_files.
    destruct (files w !! partitionPath now') eqn:E'; [reflexivity|].
    destruct (decide (partitionPath now' = partitionPath now)) as [Ep|Ep].
    - rewrite <- Ep, E'. apply prefix_nil.
    - rewrite lookup_insert_ne by exact Ep. reflexivity. }
  destruct e as [ep now' response| | |]; simpl.
  - unfold partition. rewrite fetch_files.
    destruct response as [[t h]|]; [|reflexivity].
    destruct (decide (partitionPath now' = partitionPath now)) as [Ep|Ep].
    + rewrite Ep.
      destruct (placed_partition events w now Hw) as [E|E]; rewrite E; cbv zeta.
      * apply prefix_nil.
      * cbn [contents]. rewrite JsonFacts.parse_stringify.
        destruct (existsb _ _).
        -- rewrite E. cbn [contents]. rewrite JsonFacts.parse_stringify. reflexivity.
        -- rewrite lookup_insert_eq. cbn [contents]. rewrite JsonFacts.parse_stringify.
           apply prefix_app_r. reflexivity.
    + destruct (files w !! partitionPath now') as [[|s]|]; [reflexivity| |]; cbv zeta.
      * destruct (existsb _ _); [reflexivity|].
        rewrite lookup_insert_ne by exact Ep. reflexivity.
      * destruct (existsb _ _); rewrite lookup_insert_ne by exact Ep; reflexivity.
  - unfold partition. rewrite getWeather_files. apply Hread.
  - unfold partition. rewrite getTempdata_files. apply Hread.
  - unfold partition. rewrite getTempdataPart000_files. apply Hread.
Qed.

Lemma partition_grows_from later events w now :
  placed events (files w) ->
  partition w now `prefix_of` partition (fold_left exec later w) now.
Proof.
  revert events w. induction later as [|e later IH]; intros events w Hw; [reflexivity|].
  simpl. etransitivity; [apply (partition_grows_exec events w e now Hw)|].
  apply (IH (events ++ [e])), placed_exec, Hw.
Qed.

(** X14. Partitions only grow: whatever happens after a run, each partition
    then starts with the readings it held before, unchanged and in the same
    order. No reading is ever dropped, changed or moved. *)
Theorem partitions_only_grow events later now :
  partition (run events) now `prefix_of` partition (run (events ++ later)) now.
Proof.
  unfold run at 2. rewrite fold_left_app.
  apply (partition_grows_from later events), placed_run.
Qed.

End RunMore.

Lemma readings_are_ingested_and_placed_witness :
  let r := {| temperature := 22; humidity := 38; timestamp := 1704416400000 |} in
  partitionPath (H := istHost) (timestamp r) = partitionPath (H := istHost) 1704421000000
  /\ exists ep, In (Ingest ep (timestamp r) (Some (temperature r, humidity r))) morning.
Proof.
  apply (readings_are_ingested_and_placed (H := istHost) morning 1704421000000).
  vm_compute. right. left. reflexivity.
Defined.

Section RunOrder.
Context `{Host}.

Lemma ascending_snoc t ts x :
  ascending t ts = true -> Forall (fun y => y <= x) (t :: ts) -> ascending t (ts ++ [x]) = true.
Proof.
  revert t. induction ts as [|y ts IH]; intros t Ha Hall; simpl in *.
  - apply Forall_cons_iff in Hall as [Ht _]. rewrite andb_true_r. apply Z.leb_le, Ht.
  - apply andb_prop in Ha as [Hty Ha]. rewrite Hty. simpl.
    apply IH; [exact Ha|]. apply Forall_cons_iff in Hall as [_ Hall]. exact Hall.
Qed.

Lemma inOrder_snoc ts x :
  inOrder ts = true -> Forall (fun y => y <= x) ts -> inOrder (ts ++ [x]) = true.
Proof.
  destruct ts as [|t ts]; [reflexivity|]. simpl. apply ascending_snoc.
Qed.

Lemma ordered_later T T' m : T <= T' -> ordered T m -> ordered T' m.
Proof.
  intros Hle Hm p n Hp. destruct (Hm p n Hp) as (rs & -> & Ho & Hb).
  exists rs. split; [reflexivity|]. split; [exact Ho|].
  eapply Forall_impl; [exact Hb|]. simpl. intros r Hr. lia.
Qed.

Lemma ordered_insert T m p rs :
  ordered T m -> inOrder (map timestamp rs) = true ->
  Forall (fun r => timestamp r <= T) rs ->
  ordered T (<[p := Text (Json.stringify rs)]> m).
Proof.
  intros Hm Ho Hb q n. rewrite lookup_insert. case_decide.
  - intros [= <-]. eauto.
  - apply Hm.
Qed.

Lemma ordered_read T ep now w :
  ordered T (files w) -> ordered T (files (readWeatherData ep now w).2).
Proof.
  intros Hw. rewrite read_files.
  destruct (files w !! partitionPath now); [exact Hw|].
  apply ordered_insert; [exact Hw|reflexivity|constructor].
Qed.

Lemma ordered_ingest T ep now response w :
  T <= now -> ordered T (files w) ->
  ordered now (files (fetchDataFromApi ep now response w).2).
Proof.
  intros Hle Hw. pose proof (ordered_later T now _ Hle Hw) as Hw'.
  rewrite fetch_files. destruct response as [[t h]|]; [|exact Hw'].
  destruct (files w !! partitionPath now) as [[|s]|] eqn:E; [exact Hw'| |]; cbv zeta.
  - destruct (Hw' _ _ E) as (rs & [= ->] & Ho & Hb). cbn [contents].
    rewrite JsonFacts.parse_stringify.
    destruct (existsb (inHour now) rs); [exact Hw'|].
    apply ordered_insert; [exact Hw'| |].
    + rewrite map_app. apply inOrder_snoc; [exact Ho|].
      apply Forall_map. exact Hb.
    + apply Forall_app. split; [exact Hb|]. constructor; [simpl; lia|constructor].
  - cbn [contents existsb app]. apply ordered_insert; [exact Hw'|reflexivity|].
    constructor; [simpl; lia|constructor].
Qed.

Lemma ordered_run_from events T w :
  ordered T (files w) -> ascending T (ingestTimes events) = true ->
  exists T', ordered T' (files (fold_left exec events w)).
Proof.
  revert T w. induction events as [|e events IH]; intros T w Hw Ha; [eauto|].
  destruct e as [ep now response| | |]; simpl in *.
  - apply andb_prop in Ha as [Hle Ha]. apply Z.leb_le in Hle.
    apply (IH now); [|exact Ha]. apply (ordered_ingest T); assumption.
  - apply (IH T); [|exact Ha]. intros p n. rewrite getWeather_files.
    apply ordered_read, Hw.
  - apply (IH T); [|exact Ha]. intros p n. rewrite getTempdata_files.
    apply ordered_read, Hw.
  - apply (IH T); [|exact Ha]. intros p n. rewrite getTempdataPart000_files.
    apply ordered_read, Hw.
Qed.

Lemma ascending_refl_head t ts : ascending t ts = true -> ascending t (t :: ts) = true.
Proof. intros Ha. simpl. rewrite Ha, Z.leb_refl. reflexivity. Qed.

(** X15. When the clock never goes back from one ingestion to the next,
    every partition holds its readings in the order of their timestamps. *)
Theorem partitions_in_time_order events now :
  clockRuns events = true ->
  inOrder (map timestamp (partition (run events) now)) = true.
Proof.
  intros Hc. unfold clockRuns, inOrder in Hc.
  assert (Hex : exists T, ordered T (files (run events))).
  { assert (H0 : forall T, ordered T (files emptyWorld)).
    { intros T p n. simpl. rewrite lookup_empty. discriminate. }
    destruct (ingestTimes events) as [|t ts] eqn:E.
    - apply (ordered_run_from events 0 emptyWorld (H0 0)). rewrite E. reflexivity.
    - apply (ordered_run_from events t emptyWorld (H0 t)). rewrite E.
      apply ascending_refl_head, Hc. }
  destruct Hex as [T HT]. unfold partition.
  destruct (files (run events) !! partitionPath now) as [n|] eqn:E; [|reflexivity].
  destruct (HT _ _ E) as (rs & -> & Ho & _). cbn [contents].
  rewrite JsonFacts.parse_stringify. exact Ho.
Qed.

(** Readings of a partition of a run fall in the year and month of the
    partition. *)
Lemma partition_year_month events now r :
  forallb (fun e => clockOk (when e)) events = true ->
  In r (partition (run events) now) ->
  entryDate r = Num (timestamp r)
  /\ YearFromTime (LocalTime (timestamp r)) = getCurrentYear now
  /\ MonthFromTime (LocalTime (timestamp r)) = MonthFromTime (LocalTime now).
Proof.
  intros Hc Hr.
  pose proof (wellKept_partition (run events) now (wellKept_run events Hc)) as [_ Hv].
  rewrite Forall_forall in Hv. specialize (Hv r (proj2 (list_elem_of_In _ _) Hr)).
  assert (Hp : partitionPath (timestamp r) = partitionPath now).
  { unfold partition in Hr.
    destruct (files (run events) !! partitionPath now) as [n|] eqn:E; [|destruct Hr].
    destruct (placed_run events _ _ E) as (rs & -> & Hrs).
    cbn [contents] in Hr. rewrite JsonFacts.parse_stringify in Hr.
    rewrite Forall_forall in Hrs. apply Hrs, list_elem_of_In, Hr. }
  apply partitionPath_inj in Hp as [Hy Hm].
  split; [|split; [exact Hy|exact Hm]].
  unfold entryDate, newDate, TimeClip. unfold clockOk in Hv. rewrite Hv. reflexivity.
Qed.

(** X16. Another month cannot be queried: after any run, [/tempdata] of
    [server.js] asked for a year or a month other than the current one
    answers 404, whatever was stored in that month, because it reads the
    partition of the current month only. *)
Theorem tempdata_other_month_not_found events now date month year :
  forallb (fun e => clockOk (when e)) events = true ->
  Server.filterYearOf now date year <> Num (getCurrentYear now)
  \/ Server.filterMonthOf now date month <> Num (MonthFromTime (LocalTime now)) ->
  (Server.getTempdata now date month year (run events)).1
  = Ok {| status := 404;
          payload := MessageBody "No data available for the specified day." |}.
Proof.
  intros Hc Hother. rewrite getTempdata_run.
  pose proof (read_partition ServerJs now (run events)) as Hr.
  destruct (readWeatherData ServerJs now (run events)) as [[rs|e] w0]; [|discriminate].
  cbn [fst] in Hr. injection Hr as ->. cbv zeta.
  replace (selectedDay now date month year (partition (run events) now)) with (@nil Reading);
    [reflexivity|].
  symmetry. apply filter_none_In. intros r Hr.
  destruct (partition_year_month events now r Hc Hr) as (Ed & Ey & Em).
  unfold Server.sameDay. rewrite Ed. cbn [getFullYear getMonth getDate]. rewrite Ey, Em.
  destruct Hother as [Hy|Hm].
  - destruct (Server.filterYearOf now date year) as [| |y|]; try reflexivity.
    cbn [strict_eq]. destruct (Z.eqb_spec (getCurrentYear now) y); [congruence|reflexivity].
  - destruct (Server.filterMonthOf now date month) as [| |m|];
      try (rewrite andb_false_r; reflexivity).
    cbn [strict_eq].
    destruct (Z.eqb_spec (MonthFromTime (LocalTime now)) m); [congruence|].
    rewrite andb_false_r. reflexivity.
Qed.

End RunOrder.

Lemma partitions_in_time_order_witness :
  inOrder (map timestamp (partition (H := istHost) (run (H := istHost) morning)
                            1704421000000)) = true.
Proof.
  apply (partitions_in_time_order (H := istHost) morning 1704421000000). reflexivity.
Defined.

Lemma tempdata_other_month_not_found_witness :
  (Server.getTempdata (H := istHost) 1704421000000 None (Some "12") (Some "2023")
     (run (H := istHost) morning)).1
  = Ok {| status := 404;
          payload := MessageBody "No data available for the specified day." |}.
Proof.
  apply (tempdata_other_month_not_found (H := istHost) morning 1704421000000 None
           (Some "12") (Some "2023")).
  - reflexivity.
  - left. vm_compute. discriminate.
Defined.

(** ** Queries, again *)

Section QueryMore.
Context `{Host}.

(** X17. On a selection that is not empty [findMinMaxTemperature] returns
    two temperatures of selected readings, the lowest no greater than the
    highest, with every selected temperature between them. *)
Theorem findMinMaxTemperature_bounds data filterBy filterValue :
  filterData data filterBy filterValue <> [] ->
  let temperatures := map temperature (filterData data filterBy filterValue) in
  exists hi lo,
    Part000.findMinMaxTemperature data filterBy filterValue
    = {| Part000.highest := Some (Num hi); Part000.lowest := Some (Num lo) |}
    /\ lo <= hi
    /\ In hi temperatures /\ In lo temperatures
    /\ Forall (fun t => lo <= t <= hi) temperatures.
Proof.
  intros Hne temperatures.
  assert (Ht : temperatures <> []).
  { subst temperatures. destruct (filterData data filterBy filterValue);
      [congruence|discriminate]. }
  destruct (MathMax_greatest temperatures Ht) as (hi & Hmax & Hin & Hall).
  destruct (MathMin_least temperatures Ht) as (lo & Hmin & Hin' & Hall').
  exists hi, lo. split; [|split; [|split; [exact Hin|split; [exact Hin'|]]]].
  - unfold Part000.findMinMaxTemperature.
    destruct (filterData data filterBy filterValue) as [|r rs] eqn:E; [congruence|].
    cbn [length Nat.eqb]. subst temperatures. rewrite map_map in Hmax, Hmin.
    rewrite Hmax, Hmin. reflexivity.
  - rewrite Forall_forall in Hall. apply Hall, list_elem_of_In, Hin'.
  - rewrite Forall_forall in *. intros t Ht'. split; [apply Hall'|apply Hall]; exact Ht'.
Qed.

Lemma ifTruthy_given {A} (s : string) (f : string -> A) (g : A) :
  s <> "" -> ifTruthy (Some s) f g = f s.
Proof.
  intros Hs. unfold ifTruthy, truthy.
  destruct (String.eqb_spec s ""); [congruence|reflexivity].
Qed.

(** X18. When the load returns, a parameter of [/tempdata] of [server.js]
    that is given and does not parse (a date that is no date, a month or a
    year that is no number) makes the answer 404, whatever the other
    parameters and the stored readings are: the bad part is NaN and equals
    the part of no reading, so nothing is selected. The partition holds what
    the model reads as the program does. *)
Theorem tempdata_bad_parameter_not_found now date month year w weatherData w0 :
  readWeatherData ServerJs now w = (Ok weatherData, w0) ->
  faithful (files w !! partitionPath now) ->
  badParameter date (fun s => newDate (VStr s))
  \/ badParameter month (fun s => parseInt (VStr s) (Some 10))
  \/ badParameter year (fun s => parseInt (VStr s) (Some 10)) ->
  selectedDay now date month year weatherData = []
  /\ Server.getTempdata now date month year w
     = (Ok {| status := 404;
              payload := MessageBody "No data available for the specified day." |}, w0).
Proof.
  intros Hr _ Hbad.
  assert (Hsel : selectedDay now date month year weatherData = []).
  { apply filter_none. intros r. unfold Server.sameDay.
    destruct Hbad as [(s & -> & Hs & Hp)|[(s & -> & Hs & Hp)|(s & -> & Hs & Hp)]].
    - unfold Server.filterDayOf, Server.filterDateOf. rewrite (ifTruthy_given s) by exact Hs.
      rewrite Hp. cbn [getDate]. rewrite strict_eq_NaN. apply andb_false_r.
    - unfold Server.filterMonthOf. rewrite (ifTruthy_given s) by exact Hs.
      rewrite Hp. cbn [sub]. rewrite strict_eq_NaN, andb_false_r. reflexivity.
    - unfold Server.filterYearOf. rewrite (ifTruthy_given s) by exact Hs.
      rewrite Hp, strict_eq_NaN. reflexivity. }
  split; [exact Hsel|]. rewrite getTempdata_run, Hr. cbv zeta. rewrite Hsel. reflexivity.
Qed.

Lemma getTempdataPart000_run now filterBy filterValue w :
  Part000.getTempdata now filterBy filterValue w =
  match readWeatherData Part000 now w with
  | (Ok weatherData, w0) =>
      let filterBy := ifTruthy filterBy (fun filterBy => filterBy) "day" in
      let r :=
        if String.eqb filterBy "day" then
          Part000.findMinMaxTemperature weatherData filterBy
            (VNum (getDate (newDate (of_query filterValue))))
        else Part000.findMinMaxTemperature weatherData filterBy (of_query filterValue) in
      (Ok {| status := 200;
             payload := MinMaxBody (Part000.highest r) (Part000.lowest r) |}, w0)
  | (Throw e, w0) =>
      (Ok {| status := 500; payload := ErrorBody "Internal Server Error" |},
       logged (LogError "Error retrieving temperature data:" e) w0)
  end.
Proof.
  unfold Part000.getTempdata, try_catch, mbind, M_bind.
  destruct (readWeatherData Part000 now w) as [[rs|e] w0]; [|reflexivity].
  cbv zeta. destruct (String.eqb _ "day"); reflexivity.
Qed.

Lemma day_number_as_date d :
  aheadOfUTC -> 1 <= d <= 31 -> getDate (newDate (VNum (Num d))) = Num 1.
Proof.
  intros Hz Hd. unfold newDate, TimeClip.
  assert (Hc : (Z.abs d <=? maxTime) = true) by (apply Z.leb_le; unfold maxTime; lia).
  rewrite Hc. cbn [getDate]. f_equal.
  transitivity (DateFromTime 0); [|reflexivity].
  apply DateFromTime_Day. unfold LocalTime.
  change (Day 0) with 0. specialize (Hz d).
  replace (d + LocalTZA d) with (0 * msPerDay + (d + LocalTZA d)) by lia.
  apply Day_midnight_plus. unfold msPerHour, msPerDay in *. lia.
Qed.


(** X20. When the load returns, [/weather] answers 200 with readings of the
    current partition, in their stored order: all of them when [filterBy]
    is absent or empty, the filtered ones otherwise; a partition that is
    missing, cannot be opened or is no JSON gives the empty list. The
    partition holds what the model reads as the program does. *)
Theorem weather_reply ep now filterBy filterValue w weatherData w0 :
  readWeatherData ep now w = (Ok weatherData, w0) ->
  faithful (files w !! partitionPath now) ->
  weatherData = partition w now
  /\ exists readings,
      getWeather ep now filterBy filterValue w
      = (Ok {| status := 200; payload := ReadingsBody readings |}, w0)
      /\ sublist readings weatherData
      /\ (truthy filterBy = false -> readings = weatherData)
      /\ (forall by_, filterBy = Some by_ -> by_ <> "" ->
          readings = filterData weatherData by_ (of_query filterValue))
      /\ (files w !! partitionPath now = None \/ unparseable (files w !! partitionPath now) ->
          readings = []).
Proof.
  intros Hr _.
  assert (Hw : weatherData = partition w now).
  { pose proof (read_partition ep now w) as Hp. rewrite Hr in Hp. cbn [fst] in Hp.
    congruence. }
  split; [exact Hw|]. rewrite getWeather_run, Hr. eexists. split; [reflexivity|].
  assert (Hsub : sublist (ifTruthy filterBy
                   (fun by_ => filterData weatherData by_ (of_query filterValue))
                   weatherData) weatherData).
  { unfold ifTruthy. destruct filterBy as [by_|]; [|reflexivity].
    destruct (truthy (Some by_)); [|reflexivity].
    rewrite filterData_keeps. apply filter_sublist. }
  split; [exact Hsub|]. split; [|split].
  - intros Ht. unfold ifTruthy. destruct filterBy; [rewrite Ht|]; reflexivity.
  - intros by_ -> Hne. rewrite ifTruthy_given by exact Hne. reflexivity.
  - intros Hbad.
    assert (E : weatherData = []).
    { rewrite Hw. unfold partition.
      destruct (files w !! partitionPath now) as [[|s]|]; try reflexivity.
      destruct Hbad as [|Hu]; [discriminate|]. cbn [contents].
      rewrite (JsonFacts.notJson_parse _ Hu). reflexivity. }
    rewrite E in Hsub |- *. apply sublist_nil_r in Hsub. exact Hsub.
Qed.

(** X21. Requests do not change what is stored: after [/weather] or either
    [/tempdata], every path that held something holds the same, and every
    partition reads as before (a missing partition file is created empty,
    which reads as before too). *)
Theorem requests_keep_the_store w e :
  isRequest e = true ->
  (forall q, is_Some (files w !! q) -> files (exec w e) !! q = files w !! q)
  /\ forall now, partition (exec w e) now = partition w now.
Proof.
  intros He.
  assert (Hread : forall ep now',
            (forall q, is_Some (files w !! q) ->
               files (readWeatherData ep now' w).2 !! q = files w !! q)
            /\ forall now, partition (readWeatherData ep now' w).2 now = partition w now).
  { intros ep now'. unfold partition. rewrite read_files.
    destruct (files w !! partitionPath now') eqn:E; [split; reflexivity|]. split.
    - intros q [n Hq]. apply lookup_insert_ne. congruence.
    - intros now. destruct (decide (partitionPath now' = partitionPath now)) as [Ep|Ep].
      + rewrite <- Ep, lookup_insert_eq, E. reflexivity.
      + rewrite lookup_insert_ne by exact Ep. reflexivity. }
  destruct e as [| ep now' fb fv | now' d m y | now' fb fv]; [discriminate| | |];
    unfold partition; simpl;
    rewrite ?getWeather_files, ?getTempdata_files, ?getTempdataPart000_files;
    apply Hread.
Qed.

End QueryMore.

Lemma findMinMaxTemperature_bounds_witness :
  let temperatures :=
    map temperature (filterData (H := istHost) morningReadings "year" (VStr "2024")) in
  exists hi lo,
    Part000.findMinMaxTemperature (H := istHost) morningReadings "year" (VStr "2024")
    = {| Part000.highest := Some (Num hi); Part000.lowest := Some (Num lo) |}
    /\ lo <= hi
    /\ In hi temperatures /\ In lo temperatures
    /\ Forall (fun t => lo <= t <= hi) temperatures.
Proof.
  apply (findMinMaxTemperature_bounds (H := istHost) morningReadings "year" (VStr "2024")).
  vm_compute. discriminate.
Defined.

Lemma tempdata_bad_parameter_not_found_witness :
  let now := 1704421000000 in
  let w := run (H := istHost) morning in
  selectedDay (H := istHost) now (Some "soon") (Some "1") (Some "2024") morningReadings = []
  /\ Server.getTempdata (H := istHost) now (Some "soon") (Some "1") (Some "2024") w
     = (Ok {| status := 404;
              payload := MessageBody "No data available for the specified day." |},
        (readWeatherData (H := istHost) ServerJs now w).2).
Proof.
  apply (tempdata_bad_parameter_not_found (H := istHost) 1704421000000 (Some "soon")
           (Some "1") (Some "2024") (run (H := istHost) morning) morningReadings).
  - vm_compute. reflexivity.
  - apply (faithful_text _ morningReadings); vm_compute; reflexivity.
  - left. exists "soon". split; [reflexivity|]. split; [discriminate|reflexivity].
Defined.

Lemma weather_reply_witness :
  let now := 1704421000000 in
  let w := run (H := istHost) morning in
  morningReadings = partition (H := istHost) w now
  /\ exists readings,
      getWeather (H := istHost) ServerJs now (Some "hour") (Some "6") w
      = (Ok {| status := 200; payload := ReadingsBody readings |},
         (readWeatherData (H := istHost) ServerJs now w).2)
      /\ sublist readings morningReadings
      /\ (truthy (Some "hour") = false -> readings = morningReadings)
      /\ (forall by_, Some "hour" = Some by_ -> by_ <> "" ->
          readings = filterData (H := istHost) morningReadings by_ (of_query (Some "6")))
      /\ (files w !! partitionPath (H := istHost) now = None
          \/ unparseable (files w !! partitionPath (H := istHost) now) ->
          readings = []).
Proof.
  apply (weather_reply (H := istHost) ServerJs 1704421000000 (Some "hour") (Some "6")
           (run (H := istHost) morning) morningReadings).
  - vm_compute. reflexivity.
  - apply (faithful_text _ morningReadings); vm_compute; reflexivity.
Defined.


Lemma requests_keep_the_store_witness :
  let w := run (H := istHost) morning in
  let e := GetTempdata 1709251200000 None None None in
  (forall q, is_Some (files w !! q) -> files (exec (H := istHost) w e) !! q = files w !! q)
  /\ forall now, partition (H := istHost) (exec (H := istHost) w e) now
                 = partition (H := istHost) w now.
Proof.
  apply (requests_keep_the_store (H := istHost) (run (H := istHost) morning)
           (GetTempdata 1709251200000 None None None)).
  reflexivity.
Defined.
